(** * The webshop's two services: order and payment

    A shallow embedding of [order/main.go] and [payment/main.go]: the
    request handlers of both gin routers, over a model of what they call
    into (encoding/json as used by gin's [BindJSON], the gorm v1 calls
    [Create], [First] and [Save] on a MySQL table, [net/http]'s client),
    and the properties of the settlement workflow proved about them.

    Tracing (spans, attributes, recorded errors) has no effect on the
    control flow of any handler and is left out, with one exception: the
    attribute built from [paymentData["status"].(string)] in the order
    service, whose evaluation can panic. *)

From Stdlib Require Import ZArith NArith Ascii String List Lia.
From stdpp Require Import base option gmap strings fin_maps.

Set Warnings "-register-all".
Local Open Scope string_scope.

(** ** JSON documents, as encoding/json scans them *)

(** A number literal keeps what the decoder looks at when the target is an
    integer field: [strconv.ParseUint] takes digits only, [strconv.ParseInt]
    takes an optional minus sign and digits; a literal with a fraction or an
    exponent is taken by neither. *)
Inductive json : Type :=
  | JNull
  | JBool (b : bool)
  | JInt (neg : bool) (mag : N)
  | JFloat (lit : string)
  | JString (s : string)
  | JArray (elems : list json)
  | JObject (members : list (string * json)).

(** The errors the handlers can see. [ErrText] is an error made in the
    handler from a literal; the others come from the libraries. *)
Inductive error : Type :=
  | ErrSyntax                             (* body is not a JSON value: syntax error, EOF *)
  | ErrUnmarshalType (target : string)    (* json.UnmarshalTypeError *)
  | ErrRecordNotFound                     (* gorm.ErrRecordNotFound *)
  | ErrDuplicateEntry                     (* MySQL error 1062 on the primary key *)
  | ErrDriver (msg : string)              (* any other failure reported by the store *)
  | ErrNet (msg : string)                 (* net/http: request construction or transport *)
  | ErrText (msg : string).

(** [err.Error()].  No handler looks at the text; for the library errors
    it is given without its variable parts (offsets, values, Go types). *)
Definition Error (e : error) : string :=
  match e with
  | ErrSyntax => "invalid character"
  | ErrUnmarshalType target => "json: cannot unmarshal into Go value " ++ target
  | ErrRecordNotFound => "record not found"
  | ErrDuplicateEntry => "Error 1062: Duplicate entry"
  | ErrDriver msg => msg
  | ErrNet msg => msg
  | ErrText msg => msg
  end.

(** *** Field names

    A struct field is found by its tag, first exactly and then under simple
    case folding.  For a tag made of lower-case ASCII letters the folding
    identifies upper and lower case, and two letters have a third form:
    U+212A (Kelvin sign, bytes E2 84 AA) folds to k, U+017F (long s, bytes
    C5 BF) folds to s. *)
Definition lower (c : ascii) : ascii :=
  let n := N_of_ascii c in
  if ((65 <=? n) && (n <=? 90))%N then ascii_of_N (n + 32) else c.

Fixpoint foldName (s : string) : string :=
  match s with
  | EmptyString => EmptyString
  | String c rest =>
      match N_of_ascii c, rest with
      | 197%N, String d rest' =>
          if (N_of_ascii d =? 191)%N then String "s" (foldName rest')
          else String c (foldName rest)
      | 226%N, String d (String e rest') =>
          if ((N_of_ascii d =? 132) && (N_of_ascii e =? 170))%N
          then String "k" (foldName rest')
          else String c (foldName rest)
      | _, _ => String (lower c) (foldName rest)
      end
  end.

(** [names tag key]: the object key [key] selects the field tagged [tag]
    (all tags of the two structs are lower case and pairwise different, so
    the exact match and the folded match select the same field). *)
Definition names (tag key : string) : bool := String.eqb (foldName key) tag.

(** *** Scalars into Go values *)

Definition maxUint64 : N := 18446744073709551615.
Definition minInt64 : Z := (-9223372036854775808)%Z.
Definition maxInt64 : Z := 9223372036854775807%Z.

(** Into a [uint] field: an unsigned decimal literal within 64 bits. *)
Definition as_uint (v : json) : option N :=
  match v with
  | JInt false mag => if (mag <=? maxUint64)%N then Some mag else None
  | _ => None
  end.

(** Into an [int] field: a signed decimal literal within 64 bits. *)
Definition as_int (v : json) : option Z :=
  match v with
  | JInt neg mag =>
      let z := if neg then (- Z.of_N mag)%Z else Z.of_N mag in
      if ((minInt64 <=? z) && (z <=? maxInt64))%Z then Some z else None
  | _ => None
  end.

Definition as_string (v : json) : option string :=
  match v with JString s => Some s | _ => None end.

Definition as_bool (v : json) : option bool :=
  match v with JBool b => Some b | _ => None end.

(** The decoder keeps the first error it meets and goes on. *)
Definition saveError (saved : option error) (e : error) : option error :=
  match saved with Some e0 => Some e0 | None => Some e end.

(** One member into one field of a struct: [null] leaves the field as it
    is, a value of the wrong kind leaves it as it is and saves an error. *)
Definition assign {S A : Type} (conv : json -> option A) (set : A -> S -> S)
    (target : string) (v : json) (st : S * option error) : S * option error :=
  match v with
  | JNull => st
  | _ => match conv v with
         | Some a => (set a (fst st), snd st)
         | None => (fst st, saveError (snd st) (ErrUnmarshalType target))
         end
  end.

(** *** Numbers into float64

    Decoding into [interface{}] turns every number of the document, at any
    depth, into a float64 with [strconv.ParseFloat].  The largest float64
    is (2^53 - 1) * 2^971; a magnitude of at least half an ulp more,
    (2^54 - 1) * 2^970, rounds to infinity and is reported as out of range.
    A magnitude too small for a float64 becomes 0 without an error. *)
Definition float64_limit : N := (2 ^ 54 - 1) * 2 ^ 970.

(** The number is [d] * 10^[e]. *)
Definition overflows_float64 (d : N) (e : Z) : bool :=
  if (0 <=? e)%Z then (float64_limit <=? d * 10 ^ Z.to_N e)%N
  else (float64_limit * 10 ^ Z.to_N (- e) <=? d)%N.

Definition digit (c : ascii) : option N :=
  let n := N_of_ascii c in
  if ((48 <=? n) && (n <=? 57))%N then Some (n - 48)%N else None.

(** The digits at the front of [s], appended to [acc]: the number read,
    how many digits were read, and the rest of the text. *)
Fixpoint read_digits (acc count : N) (s : string) : N * N * string :=
  match s with
  | EmptyString => (acc, count, s)
  | String c rest =>
      match digit c with
      | Some d => read_digits (10 * acc + d) (count + 1) rest
      | None => (acc, count, s)
      end
  end.

(** The exponent part of a literal, after its e. *)
Definition read_exponent (s : string) : option Z :=
  let '(neg, s') :=
    match s with
    | String "-" r => (true, r)
    | String "+" r => (false, r)
    | _ => (false, s)
    end in
  match read_digits 0 0 s' with
  | (e, n, EmptyString) =>
      if (n =? 0)%N then None
      else Some (if neg then (- Z.of_N e)%Z else Z.of_N e)
  | _ => None
  end.

(** A number literal with a fraction or an exponent, as [d] and [e] with
    magnitude [d] * 10^[e]: an optional minus sign, digits, then a point
    and digits, then e or E, an optional sign and digits.  (The rule that
    the integer part has no leading zeros is not checked.) *)
Definition parse_number (lit : string) : option (N * Z) :=
  let s := match lit with String "-" r => r | _ => lit end in
  let '(i, ni, r1) := read_digits 0 0 s in
  if (ni =? 0)%N then None
  else
    let mantissa :=
      match r1 with
      | String "." r =>
          let '(d, k, r2) := read_digits i 0 r in
          if (k =? 0)%N then None else Some (d, k, r2)
      | _ => Some (i, 0%N, r1)
      end in
    match mantissa with
    | None => None
    | Some (d, k, EmptyString) => Some (d, (- Z.of_N k)%Z)
    | Some (d, k, String c r3) =>
        if (Ascii.eqb c "e" || Ascii.eqb c "E")%bool then
          match read_exponent r3 with
          | Some e => Some (d, (e - Z.of_N k)%Z)
          | None => None
          end
        else None
    end.

(** Every number in the value fits a float64.  (A [JFloat] whose text is
    no number literal does not occur in a document; it is counted as not
    fitting.) *)
Fixpoint fits_float64 (v : json) : bool :=
  match v with
  | JInt _ mag => negb (overflows_float64 mag 0)
  | JFloat lit =>
      match parse_number lit with
      | Some (d, e) => negb (overflows_float64 d e)
      | None => false
      end
  | JArray elems => forallb fits_float64 elems
  | JObject members => forallb (fun kv => fits_float64 (snd kv)) members
  | _ => true
  end.
Arguments overflows_float64 : simpl never.

(** Decoding into [map[string]interface{}]: keys are taken as they are, a
    later member replaces an earlier one with the same key, and a number
    that does not fit a float64, at any depth, is an error.  A number in
    the map stands for the float64 nearest to it. *)
Definition decode_map (v : json) (m : gmap string json) : gmap string json * option error :=
  match v with
  | JNull => (m, None)
  | JObject members =>
      (fold_left (fun acc kv => <[fst kv := snd kv]> acc) members m,
       if forallb (fun kv => fits_float64 (snd kv)) members then None
       else Some (ErrUnmarshalType "float64"))
  | _ => (m, Some (ErrUnmarshalType "map[string]interface {}"))
  end.

(** ** The store: a MySQL table behind gorm *)

(** A struct with a [gorm:"primary_key"] field. *)
Class Model (A : Type) := {
  pk : A -> N;
  set_pk : N -> A -> A
}.

(** The table: its rows by primary key, and the AUTO_INCREMENT counter. *)
Record table (A : Type) := Table {
  rows : gmap N A;
  next_id : N
}.
Arguments Table {A} _ _.
Arguments rows {A} _.
Arguments next_id {A} _.

(** After [AutoMigrate] on an empty schema. *)
Definition empty_table {A : Type} : table A := Table ∅ 1%N.

(** The counter starts at 1 and only grows; every row sits under its own
    primary key, no key is 0 and the counter is above every key. *)
Definition table_wf {A : Type} `{Model A} (t : table A) : Prop :=
  (0 < next_id t)%N ∧
  map_Forall (fun k v => pk v = k ∧ (0 < k)%N ∧ (k < next_id t)%N) (rows t).

#[global] Instance table_wf_dec {A : Type} `{Model A} (t : table A) :
  Decision (table_wf t).
Proof. unfold table_wf. apply _. Defined.

Section Gorm.
Context {A : Type} `{Model A}.

(** Each call has a [fault] argument: the error, if any, that the store
    reports for a reason that is not in the table's rows (connection lost,
    a value out of the column's range, a string too long). *)

(** [db.Create(&v)]: a blank primary key is left out of the INSERT and
    the store assigns the next counter value, which is written back into
    [v]; a primary key that is not blank is inserted as it is, and the
    INSERT fails when a row has it. *)
Definition Create (fault : option error) (v : A) (t : table A)
    : (error + A) * table A :=
  match fault with
  | Some e => (inl e, t)
  | None =>
      if (pk v =? 0)%N then
        let v' := set_pk (next_id t) v in
        (inr v', Table (<[next_id t := v']> (rows t)) (N.succ (next_id t)))
      else
        match rows t !! pk v with
        | Some _ => (inl ErrDuplicateEntry, t)
        | None =>
            (inr v, Table (<[pk v := v]> (rows t))
                          (N.max (next_id t) (N.succ (pk v))))
        end
  end.

(** [db.First(&v, id)], where [v] is a zero struct and [id] is the :id
    segment of the path.  The handlers are given the segment as the number
    it spells, and gorm reads a string of digits as a primary key: the row
    whose primary key is [id].  A segment that is not a decimal number is
    outside this model (gorm hands it to the store as a condition). *)
Definition First (fault : option error) (id : N) (t : table A) : error + A :=
  match fault with
  | Some e => inl e
  | None =>
      match rows t !! id with
      | Some v => inr v
      | None => inl ErrRecordNotFound
      end
  end.

(** [db.Save(&v)]: with a blank primary key it is [Create]; otherwise an
    UPDATE of all columns of the row with that key and, when no row was
    changed, [FirstOrCreate]: the row is read back if there is one and
    inserted under that key if there is none. *)
Definition Save (fault : option error) (v : A) (t : table A)
    : (error + A) * table A :=
  match fault with
  | Some e => (inl e, t)
  | None =>
      if (pk v =? 0)%N then Create None v t
      else
        match rows t !! pk v with
        | Some _ => (inr v, Table (<[pk v := v]> (rows t)) (next_id t))
        | None => Create None v t
        end
  end.
End Gorm.

(** ** net/http and the process environment *)

(** The two URLs the services build for each other:
    [fmt.Sprintf("%s/payments/%s", base, id)] and
    [fmt.Sprintf("%s/orders/%d/pay", base, id)]. *)
Inductive endpoint : Type :=
  | PaymentsId (id : N)
  | OrdersIdPay (id : N).

Record Request := {
  Method : string;
  Base : string;
  Path : endpoint;
  ReqBody : option json
}.

(** A response: its status code and its body, [None] when the body is not
    a JSON value. *)
Record Response := {
  StatusCode : Z;
  Body : option json
}.

Definition StatusOK : Z := 200.
Definition StatusCreated : Z := 201.
Definition StatusBadRequest : Z := 400.
Definition StatusNotFound : Z := 404.
Definition StatusInternalServerError : Z := 500.

(** What one handler invocation gets from outside: the environment
    variables, [http.NewRequestWithContext]'s verdict on a request,
    [client.Do], and the store's faults for the calls it makes. *)
Record Env := {
  Getenv : string -> string;
  NewRequest : Request -> option error;
  Do : Request -> error + Response;
  first_fault : option error;
  create_fault : option error;
  save_fault : option error
}.

(** What a handler hands to [c.JSON]. *)
Inductive payload (R : Type) : Type :=
  | H_error (e : error)                 (* gin.H{"error": ...} *)
  | H_record (r : R)                    (* the struct *)
  | H_map (m : gmap string json).       (* a decoded map *)
Arguments H_error {R} _.
Arguments H_record {R} _.
Arguments H_map {R} _.

(** How a handler ends: with one call of [c.JSON], or in a panic (which
    gin's recovery middleware, installed by [gin.Default], turns into an
    empty 500 reply). *)
Inductive outcome (R : Type) : Type :=
  | Replied (code : Z) (body : payload R)
  | Panicked.
Arguments Replied {R} _ _.
Arguments Panicked {R}.

(** The last value other than [null] that the members give for a tag: the
    value a struct field ends up with, when there is one. *)
Fixpoint supplied (tag : string) (members : list (string * json)) : option json :=
  match members with
  | [] => None
  | (k, v) :: rest =>
      match supplied tag rest with
      | Some w => Some w
      | None =>
          if names tag k then match v with JNull => None | _ => Some v end
          else None
      end
  end.

(** The members a request body offers to a struct: those of an object; a
    [null] body offers none. *)
Definition body_members (body : option json) : list (string * json) :=
  match body with
  | Some (JObject members) => members
  | _ => []
  end.

(** Every key of the members selects one of the given tags. *)
Definition only_fields (tags : list string) (members : list (string * json)) : bool :=
  forallb (fun kv => existsb (fun t => names t (fst kv)) tags) members.

(** The value a decoded map holds for a key: that of the last member with
    exactly this key. *)
Fixpoint member (key : string) (members : list (string * json)) : option json :=
  match members with
  | [] => None
  | (k, v) :: rest =>
      match member key rest with
      | Some w => Some w
      | None => if String.eqb k key then Some v else None
      end
  end.

(** A field after decoding, against what the members supply for it. *)
Definition field_agrees {A : Type} (conv : json -> option A) (old new : A)
    (sup : option json) : Prop :=
  match sup with
  | Some v => conv v = Some new
  | None => new = old
  end.

(** ** order/main.go *)

Module OrderService.

Record Order := {
  ID : N;          (* uint, json "id", gorm primary_key *)
  Item : string;   (* json "item" *)
  Amount : Z;      (* int, json "amount" *)
  Paid : bool      (* json "paid" *)
}.

Definition with_ID (n : N) (o : Order) : Order :=
  {| ID := n; Item := Item o; Amount := Amount o; Paid := Paid o |}.
Definition with_Item (s : string) (o : Order) : Order :=
  {| ID := ID o; Item := s; Amount := Amount o; Paid := Paid o |}.
Definition with_Amount (z : Z) (o : Order) : Order :=
  {| ID := ID o; Item := Item o; Amount := z; Paid := Paid o |}.
Definition with_Paid (b : bool) (o : Order) : Order :=
  {| ID := ID o; Item := Item o; Amount := Amount o; Paid := b |}.

#[global] Instance Order_Model : Model Order := {| pk := ID; set_pk := with_ID |}.

(** [var order Order] *)
Definition zero : Order := {| ID := 0; Item := ""; Amount := 0; Paid := false |}.

(** The store handle [db], opened on the orders table. *)
Abbreviation DB := (table Order).

(** One object member into the struct. *)
Definition decode_member (st : Order * option error) (kv : string * json)
    : Order * option error :=
  let (k, v) := kv in
  if names "id" k then assign as_uint with_ID "Order.id" v st
  else if names "item" k then assign as_string with_Item "Order.item" v st
  else if names "amount" k then assign as_int with_Amount "Order.amount" v st
  else if names "paid" k then assign as_bool with_Paid "Order.paid" v st
  else st.

(** [json.NewDecoder(body).Decode(&order)] on a well-formed value. *)
Definition Unmarshal (v : json) (o : Order) : Order * option error :=
  match v with
  | JNull => (o, None)
  | JObject members => fold_left decode_member members (o, None)
  | _ => (o, Some (ErrUnmarshalType "Order"))
  end.

(** [c.BindJSON(&order)]; the struct has no binding tags, so validation
    adds nothing.  [None] is a body that is not a JSON value. *)
Definition BindJSON (body : option json) (o : Order) : Order * option error :=
  match body with
  | None => (o, Some ErrSyntax)
  | Some v => Unmarshal v o
  end.

(** The overlay of the members on a record [o], giving [o']: each field is
    the value supplied for its tag, or stays as it was in [o]. *)
Definition decoded (members : list (string * json)) (o o' : Order) : Prop :=
  field_agrees as_uint (ID o) (ID o') (supplied "id" members) ∧
  field_agrees as_string (Item o) (Item o') (supplied "item" members) ∧
  field_agrees as_int (Amount o) (Amount o') (supplied "amount" members) ∧
  field_agrees as_bool (Paid o) (Paid o') (supplied "paid" members).

Definition createOrderWithContext (env : Env) (order : Order) (db : DB)
    : (error + Order) * DB :=
  Create (create_fault env) order db.

(** POST /orders *)
Definition createOrder (env : Env) (body : option json) (db : DB)
    : outcome Order * DB :=
  match BindJSON body zero with
  | (_, Some err) => (Replied StatusBadRequest (H_error err), db)
  | (order, None) =>
      match createOrderWithContext env order db with
      | (inl err, db') => (Replied StatusInternalServerError (H_error err), db')
      | (inr order', db') => (Replied StatusCreated (H_record order'), db')
      end
  end.

(** GET /orders/:id *)
Definition getOrder (env : Env) (id : N) (db : DB) : outcome Order * DB :=
  match First (first_fault env) id db with
  | inl _ => (Replied StatusNotFound (H_error (ErrText "Order not found")), db)
  | inr order => (Replied StatusOK (H_record order), db)
  end.

(** PUT /orders/:id *)
Definition updateOrder (env : Env) (id : N) (body : option json) (db : DB)
    : outcome Order * DB :=
  match First (first_fault env) id db with
  | inl _ => (Replied StatusNotFound (H_error (ErrText "Order not found")), db)
  | inr order =>
      match BindJSON body order with
      | (_, Some err) => (Replied StatusBadRequest (H_error err), db)
      | (order', None) =>
          match Save (save_fault env) order' db with
          | (inl err, db') => (Replied StatusInternalServerError (H_error err), db')
          | (inr order'', db') => (Replied StatusOK (H_record order''), db')
          end
      end
  end.

(** PUT /orders/:id/pay *)
Definition payOrder (env : Env) (id : N) (db : DB) : outcome Order * DB :=
  match First (first_fault env) id db with
  | inl _ => (Replied StatusNotFound (H_error (ErrText "Order not found")), db)
  | inr order =>
      let order' := with_Paid true order in
      match Save (save_fault env) order' db with
      | (inl err, db') => (Replied StatusInternalServerError (H_error err), db')
      | (inr order'', db') => (Replied StatusOK (H_record order''), db')
      end
  end.

(** [paymentData["status"].(string)]: [None] is the panic of a failed
    type assertion (key missing, [null], or a value that is not a string). *)
Definition status_string (paymentData : gmap string json) : option string :=
  match paymentData !! "status" with
  | Some (JString s) => Some s
  | _ => None
  end.

(** GET /orders/:id/payment.  It touches no table of this service.
    [paymentData] starts as the nil map, which reads like the empty one. *)
Definition getPayment (env : Env) (orderID : N) : outcome Order :=
  let paymentServiceURL := Getenv env "PAYMENT_SERVICE_URL" in
  if String.eqb paymentServiceURL "" then
    Replied StatusInternalServerError
      (H_error (ErrText "PAYMENT_SERVICE_URL not configured"))
  else
    let req := {| Method := "GET"; Base := paymentServiceURL;
                  Path := PaymentsId orderID; ReqBody := None |} in
    match NewRequest env req with
    | Some err => Replied StatusInternalServerError (H_error err)
    | None =>
        match Do env req with
        | inl err => Replied StatusInternalServerError (H_error err)
        | inr resp =>
            if negb (StatusCode resp =? StatusOK)%Z then
              Replied StatusInternalServerError
                (H_error (ErrText "Failed to get payment from payment service"))
            else
              match (match Body resp with
                     | None => (∅, Some ErrSyntax)
                     | Some v => decode_map v ∅
                     end) with
              | (_, Some err) => Replied StatusInternalServerError (H_error err)
              | (paymentData, None) =>
                  match status_string paymentData with
                  | None => Panicked
                  | Some _ => Replied StatusOK (H_map paymentData)
                  end
              end
        end
    end.

End OrderService.

(** ** payment/main.go *)

Module PaymentService.

Record Payment := {
  ID : N;            (* uint, json "id", gorm primary_key *)
  OrderID : N;       (* uint, json "order_id" *)
  Amount : Z;        (* int, json "amount" *)
  Status : string    (* json "status" *)
}.

Definition with_ID (n : N) (p : Payment) : Payment :=
  {| ID := n; OrderID := OrderID p; Amount := Amount p; Status := Status p |}.
Definition with_OrderID (n : N) (p : Payment) : Payment :=
  {| ID := ID p; OrderID := n; Amount := Amount p; Status := Status p |}.
Definition with_Amount (z : Z) (p : Payment) : Payment :=
  {| ID := ID p; OrderID := OrderID p; Amount := z; Status := Status p |}.
Definition with_Status (s : string) (p : Payment) : Payment :=
  {| ID := ID p; OrderID := OrderID p; Amount := Amount p; Status := s |}.

#[global] Instance Payment_Model : Model Payment := {| pk := ID; set_pk := with_ID |}.

(** [var payment Payment] *)
Definition zero : Payment := {| ID := 0; OrderID := 0; Amount := 0; Status := "" |}.

Abbreviation DB := (table Payment).

Definition decode_member (st : Payment * option error) (kv : string * json)
    : Payment * option error :=
  let (k, v) := kv in
  if names "id" k then assign as_uint with_ID "Payment.id" v st
  else if names "order_id" k then assign as_uint with_OrderID "Payment.order_id" v st
  else if names "amount" k then assign as_int with_Amount "Payment.amount" v st
  else if names "status" k then assign as_string with_Status "Payment.status" v st
  else st.

Definition Unmarshal (v : json) (p : Payment) : Payment * option error :=
  match v with
  | JNull => (p, None)
  | JObject members => fold_left decode_member members (p, None)
  | _ => (p, Some (ErrUnmarshalType "Payment"))
  end.

Definition BindJSON (body : option json) (p : Payment) : Payment * option error :=
  match body with
  | None => (p, Some ErrSyntax)
  | Some v => Unmarshal v p
  end.

Definition decoded (members : list (string * json)) (p p' : Payment) : Prop :=
  field_agrees as_uint (ID p) (ID p') (supplied "id" members) ∧
  field_agrees as_uint (OrderID p) (OrderID p') (supplied "order_id" members) ∧
  field_agrees as_int (Amount p) (Amount p') (supplied "amount" members) ∧
  field_agrees as_string (Status p) (Status p') (supplied "status" members).

(** What [c.JSON] writes for a Payment, as the peer reads it back. *)
Definition to_json (p : Payment) : json :=
  JObject [("id", JInt false (ID p));
           ("order_id", JInt false (OrderID p));
           ("amount", JInt (Amount p <? 0)%Z (Z.abs_N (Amount p)));
           ("status", JString (Status p))].

(** The request of the settlement callback:
    PUT <ORDER_SERVICE>/orders/<order_id>/pay with body {"paid": true}. *)
Definition pay_request (orderservice : string) (orderID : N) : Request :=
  {| Method := "PUT"; Base := orderservice; Path := OrdersIdPay orderID;
     ReqBody := Some (JObject [("paid", JBool true)]) |}.

(** The callback did not end in a 200: the peer's address is not set, the
    request could not be built, the transport failed, or the Order Service
    answered with another status. *)
Definition callback_fails (env : Env) (orderID : N) : Prop :=
  let req := pay_request (Getenv env "ORDER_SERVICE") orderID in
  Getenv env "ORDER_SERVICE" = "" ∨
  is_Some (NewRequest env req) ∨
  (∃ e, Do env req = inl e) ∨
  (∃ resp, Do env req = inr resp ∧ StatusCode resp ≠ StatusOK).

(** POST /payments *)
Definition processPayment (env : Env) (body : option json) (db : DB)
    : outcome Payment * DB :=
  match BindJSON body zero with
  | (_, Some err) => (Replied StatusBadRequest (H_error err), db)
  | (payment, None) =>
      let payment := with_Status "success" payment in
      match Create (create_fault env) payment db with
      | (inl err, db') => (Replied StatusInternalServerError (H_error err), db')
      | (inr payment, db') =>
          let orderservice := Getenv env "ORDER_SERVICE" in
          if String.eqb orderservice "" then
            (Replied StatusInternalServerError
               (H_error (ErrText "ORDER_SERVICE is not set")), db')
          else
            let req := pay_request orderservice (OrderID payment) in
            match NewRequest env req with
            | Some _ =>
                (Replied StatusInternalServerError
                   (H_error (ErrText "Failed to create request to order service")), db')
            | None =>
                match Do env req with
                | inr resp =>
                    if (StatusCode resp =? StatusOK)%Z then
                      (Replied StatusCreated (H_record payment), db')
                    else
                      (Replied StatusInternalServerError
                         (H_error (ErrText "Failed to update order service")), db')
                | inl _ =>
                    (Replied StatusInternalServerError
                       (H_error (ErrText "Failed to update order service")), db')
                end
            end
      end
  end.

(** GET /payments/:id *)
Definition getPayment (env : Env) (id : N) (db : DB) : outcome Payment * DB :=
  match First (first_fault env) id db with
  | inl err => (Replied StatusInternalServerError (H_error err), db)
  | inr payment => (Replied StatusOK (H_record payment), db)
  end.

(** What reaches the client: [c.JSON] writes the status and the encoded
    payload; after a panic the recovery middleware of [gin.Default] aborts
    with an empty 500. *)
Definition wire (out : outcome Payment) : Response :=
  match out with
  | Replied code (H_record p) => {| StatusCode := code; Body := Some (to_json p) |}
  | Replied code (H_error e) =>
      {| StatusCode := code; Body := Some (JObject [("error", JString (Error e))]) |}
  | Replied code (H_map m) =>
      {| StatusCode := code; Body := Some (JObject (map_to_list m)) |}
  | Panicked => {| StatusCode := StatusInternalServerError; Body := None |}
  end.

(** The router as a peer reaches it, for the one route that only reads:
    [router.GET("/payments/:id", getPayment)].  Anything else asked of this
    function is answered like an unknown route (404, a body that is not
    JSON). *)
Definition serve_read (env : Env) (db : DB) (req : Request) : error + Response :=
  match Path req with
  | PaymentsId id =>
      if String.eqb (Method req) "GET" then inr (wire (fst (getPayment env id db)))
      else inr {| StatusCode := StatusNotFound; Body := None |}
  | OrdersIdPay _ => inr {| StatusCode := StatusNotFound; Body := None |}
  end.

End PaymentService.

(** ** Environments and requests used in the examples *)

Module Examples.

(** Peers configured, store healthy, the peer unreachable. *)
Definition env_down : Env :=
  {| Getenv := fun _ => "http://peer";
     NewRequest := fun _ => None;
     Do := fun _ => inl (ErrNet "connection refused");
     first_fault := None; create_fault := None; save_fault := None |}.

(** Peers configured, store healthy, the peer answers [resp] to everything. *)
Definition env_answer (resp : Response) : Env :=
  {| Getenv := fun _ => "http://peer";
     NewRequest := fun _ => None;
     Do := fun _ => inr resp;
     first_fault := None; create_fault := None; save_fault := None |}.

(** The order service's environment when its requests reach a payment
    service running on [db]. *)
Definition env_proxy (db : PaymentService.DB) : Env :=
  {| Getenv := fun _ => "http://paymentservice:8091";
     NewRequest := fun _ => None;
     Do := PaymentService.serve_read env_down db;
     first_fault := None; create_fault := None; save_fault := None |}.

(** { "item": "t-shirt", "amount": 100 } *)
Definition tshirt : option json :=
  Some (JObject [("item", JString "t-shirt"); ("amount", JInt false 100)]).

(** { "item": "t-shirt", "amount": 100, "paid": true } *)
Definition tshirt_paid : option json :=
  Some (JObject [("item", JString "t-shirt"); ("amount", JInt false 100);
                 ("paid", JBool true)]).

(** { "id": 42, "item": "t-shirt", "amount": 100 } *)
Definition tshirt_42 : option json :=
  Some (JObject [("id", JInt false 42); ("item", JString "t-shirt");
                 ("amount", JInt false 100)]).

(** { "order_id": 4, "amount": 100, "status": "pending" } *)
Definition pay_4 : option json :=
  Some (JObject [("order_id", JInt false 4); ("amount", JInt false 100);
                 ("status", JString "pending")]).

(** { "id": 42, "order_id": 4, "amount": 100, "status": "pending" } *)
Definition pay_4_as_42 : option json :=
  Some (JObject [("id", JInt false 42); ("order_id", JInt false 4);
                 ("amount", JInt false 100); ("status", JString "pending")]).

(** { "id": 0, "paid": true } *)
Definition id_0_paid : option json :=
  Some (JObject [("id", JInt false 0); ("paid", JBool true)]).

(** { "item": null } *)
Definition item_null : option json := Some (JObject [("item", JNull)]).

(** { "id": 1, "order_id": 7, "amount": 100 }, with status 200 *)
Definition ok_without_status : Response :=
  {| StatusCode := StatusOK;
     Body := Some (JObject [("id", JInt false 1); ("order_id", JInt false 7);
                            ("amount", JInt false 100)]) |}.

(** An answer with status 200 and an order in its body. *)
Definition ok_200 : Response :=
  {| StatusCode := StatusOK;
     Body := Some (JObject [("id", JInt false 4); ("item", JString "t-shirt");
                            ("amount", JInt false 100); ("paid", JBool true)]) |}.

(** The orders table after one POST of [tshirt]. *)
Definition one_order : OrderService.DB :=
  snd (OrderService.createOrder env_down tshirt empty_table).

(** A payments table whose one row has id 1 and pays order 7. *)
Definition payment_1_for_7 : PaymentService.DB :=
  Table {[ 1%N := {| PaymentService.ID := 1; PaymentService.OrderID := 7;
                     PaymentService.Amount := 100;
                     PaymentService.Status := "success" |} ]} 2%N.

End Examples.

(** ** Bodies the decoders take *)

(** A value fits a field: [null] always does, another value when the
    field's conversion takes it. *)
Definition kind_ok {A : Type} (conv : json → option A) (v : json) : bool :=
  match v with
  | JNull => true
  | _ => match conv v with Some _ => true | None => false end
  end.

Module OrderBodies.

(** A member is acceptable for an Order: it selects no field, or its
    value fits the field it selects. *)
Definition member_ok (kv : string * json) : bool :=
  let (k, v) := kv in
  if names "id" k then kind_ok as_uint v
  else if names "item" k then kind_ok as_string v
  else if names "amount" k then kind_ok as_int v
  else if names "paid" k then kind_ok as_bool v
  else true.

(** A body is acceptable: it is a JSON value, [null] or an object, and
    every member of the object is acceptable. *)
Definition body_ok (body : option json) : bool :=
  match body with
  | Some JNull => true
  | Some (JObject members) => forallb member_ok members
  | _ => false
  end.

End OrderBodies.

Module PaymentBodies.

Definition member_ok (kv : string * json) : bool :=
  let (k, v) := kv in
  if names "id" k then kind_ok as_uint v
  else if names "order_id" k then kind_ok as_uint v
  else if names "amount" k then kind_ok as_int v
  else if names "status" k then kind_ok as_string v
  else true.

Definition body_ok (body : option json) : bool :=
  match body with
  | Some JNull => true
  | Some (JObject members) => forallb member_ok members
  | _ => false
  end.

End PaymentBodies.

(** ** The routers of [main], one request after another *)

Module OrderRouter.
Import OrderService.

(** The routes of the order service that run a handler of this file:
    POST /orders, GET /orders/:id, PUT /orders/:id, PUT /orders/:id/pay,
    GET /orders/:id/payment. *)
Inductive call : Type :=
  | PostOrders (body : option json)
  | GetOrdersId (id : N)
  | PutOrdersId (id : N) (body : option json)
  | PutOrdersIdPay (id : N)
  | GetOrdersIdPayment (id : N).

(** One request, with the environment it runs in. *)
Definition step (c : Env * call) (db : DB) : outcome Order * DB :=
  match snd c with
  | PostOrders body => createOrder (fst c) body db
  | GetOrdersId id => getOrder (fst c) id db
  | PutOrdersId id body => updateOrder (fst c) id body db
  | PutOrdersIdPay id => payOrder (fst c) id db
  | GetOrdersIdPayment id => (getPayment (fst c) id, db)
  end.

(** Requests served one after another. *)
Definition run (cs : list (Env * call)) (db : DB) : DB :=
  fold_left (fun d c => snd (step c d)) cs db.

(** What [c.JSON] writes for an Order.  An item held by the service came
    through the decoder or the store; the encoder writes such text as it
    is. *)
Definition to_json (o : Order) : json :=
  JObject [("id", JInt false (ID o));
           ("item", JString (Item o));
           ("amount", JInt (Amount o <? 0)%Z (Z.abs_N (Amount o)));
           ("paid", JBool (Paid o))].

Definition wire (out : outcome Order) : Response :=
  match out with
  | Replied code (H_record o) => {| StatusCode := code; Body := Some (to_json o) |}
  | Replied code (H_error e) =>
      {| StatusCode := code; Body := Some (JObject [("error", JString (Error e))]) |}
  | Replied code (H_map m) =>
      {| StatusCode := code; Body := Some (JObject (map_to_list m)) |}
  | Panicked => {| StatusCode := StatusInternalServerError; Body := None |}
  end.

(** The router as the payment service reaches it:
    [router.PUT("/orders/:id/pay", payOrder)], which does not read the
    request body.  Another method on that path, or a path of the other
    service, has no route here (404, a body that is not JSON). *)
Definition serve_pay (env : Env) (req : Request) (db : DB) : Response * DB :=
  match Path req with
  | OrdersIdPay id =>
      if String.eqb (Method req) "PUT" then
        (wire (fst (payOrder env id db)), snd (payOrder env id db))
      else ({| StatusCode := StatusNotFound; Body := None |}, db)
  | PaymentsId _ => ({| StatusCode := StatusNotFound; Body := None |}, db)
  end.

End OrderRouter.

Module PaymentRouter.
Import PaymentService.

(** POST /payments and GET /payments/:id. *)
Inductive call : Type :=
  | PostPayments (body : option json)
  | GetPaymentsId (id : N).

Definition step (c : Env * call) (db : DB) : outcome Payment * DB :=
  match snd c with
  | PostPayments body => processPayment (fst c) body db
  | GetPaymentsId id => getPayment (fst c) id db
  end.

Definition run (cs : list (Env * call)) (db : DB) : DB :=
  fold_left (fun d c => snd (step c d)) cs db.

End PaymentRouter.

(** ** The two services together *)

Module System.
Import PaymentService.

(** [processPayment] over a peer that has state of its own: [send] is
    [client.Do], which may change the peer.  The handler is the one of
    [PaymentService], with the peer's state threaded through the one place
    where it calls out. *)
Definition processPayment_in {W : Type} (env : Env)
    (send : Request → W → (error + Response) * W)
    (body : option json) (db : DB) (w : W) : outcome Payment * DB * W :=
  match BindJSON body zero with
  | (_, Some err) => (Replied StatusBadRequest (H_error err), db, w)
  | (payment, None) =>
      let payment := with_Status "success" payment in
      match Create (create_fault env) payment db with
      | (inl err, db') => (Replied StatusInternalServerError (H_error err), db', w)
      | (inr payment, db') =>
          let orderservice := Getenv env "ORDER_SERVICE" in
          if String.eqb orderservice "" then
            (Replied StatusInternalServerError
               (H_error (ErrText "ORDER_SERVICE is not set")), db', w)
          else
            let req := pay_request orderservice (OrderID payment) in
            match NewRequest env req with
            | Some _ =>
                (Replied StatusInternalServerError
                   (H_error (ErrText "Failed to create request to order service")),
                 db', w)
            | None =>
                match send req w with
                | (inr resp, w') =>
                    if (StatusCode resp =? StatusOK)%Z then
                      (Replied StatusCreated (H_record payment), db', w')
                    else
                      (Replied StatusInternalServerError
                         (H_error (ErrText "Failed to update order service")), db', w')
                | (inl _, w') =>
                    (Replied StatusInternalServerError
                       (H_error (ErrText "Failed to update order service")), db', w')
                end
            end
      end
  end.

(** The link to the order service: the request is lost ([Some] error) or
    it reaches the order service's router, running in [oenv]. *)
Definition deliver (link : option error) (oenv : Env) (req : Request)
    (orders : OrderService.DB) : (error + Response) * OrderService.DB :=
  match link with
  | Some e => (inl e, orders)
  | None => (inr (fst (OrderRouter.serve_pay oenv req orders)),
             snd (OrderRouter.serve_pay oenv req orders))
  end.

(** POST /payments with the order service at the other end. *)
Definition settle (penv oenv : Env) (link : option error) (body : option json)
    (payments : DB) (orders : OrderService.DB)
    : outcome Payment * DB * OrderService.DB :=
  processPayment_in penv (deliver link oenv) body payments orders.

End System.

Module SystemExamples.

(** An orders table whose one row is the unpaid order 4. *)
Definition order_4 : OrderService.DB :=
  Table {[ 4%N := {| OrderService.ID := 4; OrderService.Item := "t-shirt";
                     OrderService.Amount := 100; OrderService.Paid := false |} ]} 5%N.

(** Store healthy; the payment service behind it fails every lookup. *)
Definition env_proxy_faulty (db : PaymentService.DB) : Env :=
  {| Getenv := fun _ => "http://paymentservice:8091";
     NewRequest := fun _ => None;
     Do := PaymentService.serve_read
             {| Getenv := fun _ => ""; NewRequest := fun _ => None;
                Do := fun _ => inl (ErrNet "unused");
                first_fault := Some (ErrDriver "invalid connection");
                create_fault := None; save_fault := None |} db;
     first_fault := None; create_fault := None; save_fault := None |}.

End SystemExamples.

(** * Properties *)

(** ** Decoding a body into a struct *)

Section Decoding.

Lemma names_functional t1 t2 k : names t1 k = true → names t2 k = true → t1 = t2.
Proof.
  unfold names. intros H1 H2.
  apply String.eqb_eq in H1. apply String.eqb_eq in H2. congruence.
Qed.

Lemma supplied_snoc tag ms k v :
  supplied tag (ms ++ [(k, v)]) =
  if names tag k then match v with JNull => supplied tag ms | _ => Some v end
  else supplied tag ms.
Proof.
  induction ms as [|[k0 v0] ms IH]; simpl.
  - destruct (names tag k); [destruct v|]; reflexivity.
  - rewrite IH. destruct (names tag k); [destruct v|]; reflexivity.
Qed.

(** Members that select other fields supply nothing for a tag. *)
Lemma supplied_only tags tag ms :
  only_fields tags ms = true → ¬ In tag tags → supplied tag ms = None.
Proof.
  intros Hall Hnot. induction ms as [|[k v] ms IH]; simpl in *; [done|].
  apply andb_prop in Hall as [Hk Hms]. rewrite (IH Hms).
  destruct (names tag k) eqn:Hn; [|done].
  apply existsb_exists in Hk as (t & Ht & Htk). simpl in Htk.
  rewrite (names_functional _ _ _ Hn Htk) in Hnot. done.
Qed.

Context {S A : Type} (conv : json → option A) (set : A → S → S) (tgt : string).

Lemma assign_error v (st : S * option error) :
  snd (assign conv set tgt v st) = None → snd st = None.
Proof.
  unfold assign. destruct v; try done; destruct (conv _); simpl; try done;
    destruct (snd st); simpl; done.
Qed.

Lemma assign_inv v (s s' : S) :
  assign conv set tgt v (s, None) = (s', None) →
  (v = JNull ∧ s' = s) ∨ (v ≠ JNull ∧ ∃ a, conv v = Some a ∧ s' = set a s).
Proof.
  unfold assign. destruct v; simpl;
    try (intros [= <-]; left; done);
    destruct (conv _) eqn:E; simpl; intros [= <-]; right; split; eauto; done.
Qed.

Lemma field_agrees_snoc tag ms k v (old new : A) :
  names tag k = false →
  field_agrees conv old new (supplied tag ms) →
  field_agrees conv old new (supplied tag (ms ++ [(k, v)])).
Proof. intros Hn. rewrite supplied_snoc, Hn. done. Qed.

Lemma field_agrees_null tag ms k (old new : A) :
  field_agrees conv old new (supplied tag ms) →
  field_agrees conv old new (supplied tag (ms ++ [(k, JNull)])).
Proof. rewrite supplied_snoc. destruct (names tag k); done. Qed.

Lemma field_agrees_set tag ms k v (old a : A) :
  names tag k = true → v ≠ JNull → conv v = Some a →
  field_agrees conv old a (supplied tag (ms ++ [(k, v)])).
Proof. intros Hn Hv Hc. rewrite supplied_snoc, Hn. destruct v; done. Qed.

End Decoding.

(** After one more member [(k, v)]: every field agrees with what the longer
    list supplies.  The goal is a conjunction of [field_agrees] facts. *)
Ltac settle_fields k :=
  repeat match goal with
  | |- _ ∧ _ => split
  | |- field_agrees _ _ _ (supplied _ (_ ++ [(_, JNull)])) =>
      by apply field_agrees_null
  | H : names ?t k = false |- field_agrees _ _ _ (supplied ?t _) =>
      by apply field_agrees_snoc
  | H : names ?t k = true |- field_agrees _ _ _ (supplied ?t _) =>
      by apply field_agrees_set
  | H : names ?t k = true |- field_agrees _ _ _ (supplied ?t' _) =>
      apply field_agrees_snoc; [|done];
      destruct (names t' k) eqn:?; [|done];
      exfalso; assert (t = t') by eauto using names_functional; done
  end.

Module OrderDecoding.
Import OrderService.

Lemma order_decode_member_error st kv : snd (decode_member st kv) = None → snd st = None.
Proof.
  destruct kv as [k v]. unfold decode_member.
  repeat (destruct (names _ k)); eauto using @assign_error.
Qed.

(** The decoder's result, when it reports no error, is the overlay of the
    members on the record it started from. *)
Lemma order_decode_members_fields ms o o' :
  fold_left decode_member ms (o, None) = (o', None) → decoded ms o o'.
Proof.
  revert o'. induction ms as [|[k v] ms IH] using rev_ind; intros o' Hf.
  - simpl in Hf. injection Hf as <-. repeat split.
  - rewrite fold_left_app in Hf. cbn [fold_left] in Hf.
    destruct (fold_left decode_member ms (o, None)) as [o1 e1] eqn:Hms.
    assert (e1 = None) as ->.
    { apply (order_decode_member_error (o1, e1) (k, v)). by rewrite Hf. }
    destruct (IH o1 eq_refl) as (Hid & Hit & Ham & Hpd).
    unfold decode_member in Hf.
    destruct (names "id" k) eqn:N1; [|
    destruct (names "item" k) eqn:N2; [|
    destruct (names "amount" k) eqn:N3; [|
    destruct (names "paid" k) eqn:N4]]];
    try (apply assign_inv in Hf as [[-> ->]|(Hv & a & Hc & ->)]);
    try (injection Hf as <-);
    unfold decoded; simpl; settle_fields k.
Qed.

Lemma order_BindJSON_fields body o o' :
  BindJSON body o = (o', None) → decoded (body_members body) o o'.
Proof.
  destruct body as [[]|]; simpl; try done;
    try (intros [= <-]; repeat split).
  apply order_decode_members_fields.
Qed.

End OrderDecoding.

Module PaymentDecoding.
Import PaymentService.

Lemma payment_decode_member_error st kv : snd (decode_member st kv) = None → snd st = None.
Proof.
  destruct kv as [k v]. unfold decode_member.
  repeat (destruct (names _ k)); eauto using @assign_error.
Qed.

Lemma payment_decode_members_fields ms p p' :
  fold_left decode_member ms (p, None) = (p', None) → decoded ms p p'.
Proof.
  revert p'. induction ms as [|[k v] ms IH] using rev_ind; intros p' Hf.
  - simpl in Hf. injection Hf as <-. repeat split.
  - rewrite fold_left_app in Hf. cbn [fold_left] in Hf.
    destruct (fold_left decode_member ms (p, None)) as [p1 e1] eqn:Hms.
    assert (e1 = None) as ->.
    { apply (payment_decode_member_error (p1, e1) (k, v)). by rewrite Hf. }
    destruct (IH p1 eq_refl) as (Hid & Hoi & Ham & Hst).
    unfold decode_member in Hf.
    destruct (names "id" k) eqn:N1; [|
    destruct (names "order_id" k) eqn:N2; [|
    destruct (names "amount" k) eqn:N3; [|
    destruct (names "status" k) eqn:N4]]];
    try (apply assign_inv in Hf as [[-> ->]|(Hv & a & Hc & ->)]);
    try (injection Hf as <-);
    unfold decoded; simpl; settle_fields k.
Qed.

Lemma payment_BindJSON_fields body p p' :
  BindJSON body p = (p', None) → decoded (body_members body) p p'.
Proof.
  destruct body as [[]|]; simpl; try done;
    try (intros [= <-]; repeat split).
  apply payment_decode_members_fields.
Qed.

End PaymentDecoding.

(** ** The table operations *)

Section GormFacts.
Context {A : Type} `{Model A}.
Hypothesis pk_set_pk : ∀ n (v : A), pk (set_pk n v) = n.

Lemma table_wf_lookup (t : table A) k v :
  table_wf t → rows t !! k = Some v → pk v = k ∧ k ≠ 0%N ∧ (k < next_id t)%N.
Proof.
  intros [_ Hwf] Hk. destruct (Hwf k v Hk) as (? & ? & ?).
  repeat split; [done|lia|done].
Qed.

Lemma table_wf_empty : table_wf (@empty_table A).
Proof. split; [done|apply map_Forall_empty]. Qed.

(** A successful [Create] leaves the record it returns under its key. *)
Lemma Create_lookup fault v v' (t t' : table A) :
  Create fault v t = (inr v', t') → rows t' !! pk v' = Some v'.
Proof.
  unfold Create. destruct fault; [done|].
  destruct (pk v =? 0)%N.
  - intros [= <- <-]. simpl. rewrite pk_set_pk. apply lookup_insert_eq.
  - destruct (rows t !! pk v); [done|]. intros [= <- <-]. simpl.
    apply lookup_insert_eq.
Qed.

(** A failed [Create] changes nothing. *)
Lemma Create_error fault v e (t t' : table A) :
  Create fault v t = (inl e, t') → t' = t.
Proof.
  unfold Create. destruct fault; [by intros [= _ <-]|].
  destruct (pk v =? 0)%N; [done|].
  destruct (rows t !! pk v); [by intros [= _ <-]|done].
Qed.

(** [Create] on a well-formed table touches no row that was there. *)
Lemma Create_frame fault v r (t t' : table A) k w :
  table_wf t → Create fault v t = (r, t') →
  rows t !! k = Some w → rows t' !! k = Some w.
Proof.
  intros Hwf. unfold Create. destruct fault; [by intros [= _ <-]|].
  destruct (pk v =? 0)%N.
  - intros [= _ <-] Hk. simpl.
    destruct (table_wf_lookup _ _ _ Hwf Hk) as (_ & _ & Hlt).
    rewrite lookup_insert_ne; [done|lia].
  - destruct (rows t !! pk v) eqn:Hv; [by intros [= _ <-]|].
    intros [= _ <-] Hk. simpl. rewrite lookup_insert_ne; [done|congruence].
Qed.

Lemma Create_wf fault v r (t t' : table A) :
  table_wf t → Create fault v t = (r, t') → table_wf t'.
Proof.
  intros [Hpos Hwf]. unfold Create. destruct fault; [by intros [= _ <-]|].
  destruct (pk v =? 0)%N eqn:Hz.
  - intros [= _ <-]. split; simpl; [lia|]. apply map_Forall_insert_2.
    + rewrite pk_set_pk. repeat split; [done|lia].
    + intros k w Hk. destruct (Hwf k w Hk) as (? & ? & ?).
      repeat split; [done|done|lia].
  - destruct (rows t !! pk v) eqn:Hv; [by intros [= _ <-]|].
    intros [= _ <-]. split; simpl; [lia|]. apply map_Forall_insert_2.
    + apply N.eqb_neq in Hz. repeat split; lia.
    + intros k w Hk. destruct (Hwf k w Hk) as (? & ? & ?).
      repeat split; [done|done|lia].
Qed.

(** [Save] of a record with a key that is not blank is an upsert under
    that key. *)
Lemma Save_upsert v (t : table A) :
  pk v ≠ 0%N →
  ∃ n, Save None v t = (inr v, Table (<[pk v := v]> (rows t)) n) ∧
       (next_id t <= n)%N ∧ (pk v < next_id t → n = next_id t)%N.
Proof.
  intros Hz. unfold Save, Create. apply N.eqb_neq in Hz. rewrite Hz.
  destruct (rows t !! pk v); eexists; (split; [reflexivity|]); split; lia.
Qed.

Lemma Save_wf fault v r (t t' : table A) :
  table_wf t → Save fault v t = (r, t') → table_wf t'.
Proof.
  intros Hwf. unfold Save. destruct fault; [by intros [= _ <-]|].
  destruct (pk v =? 0)%N eqn:Hz; [by apply Create_wf|].
  destruct (rows t !! pk v) eqn:Hv; [|by apply Create_wf].
  intros [= _ <-]. destruct Hwf as [Hpos Hwf]. split; simpl; [done|].
  apply map_Forall_insert_2; [|done].
  destruct (Hwf _ _ Hv) as (? & ? & ?). done.
Qed.

End GormFacts.

(** ** The order service *)

Module OrderFacts.
Import OrderService.

Lemma Order_pk_set_pk n (o : Order) : pk (set_pk n o) = n.
Proof. reflexivity. Qed.

Lemma with_Paid_true_twice o : with_Paid true (with_Paid true o) = with_Paid true o.
Proof. reflexivity. Qed.

(** Every handler keeps the table well formed. *)
Lemma createOrder_wf env body db :
  table_wf db → table_wf (snd (createOrder env body db)).
Proof.
  intros Hwf. unfold createOrder, createOrderWithContext.
  destruct (BindJSON body zero) as [o [e|]]; [done|].
  destruct (Create _ o db) as [[e|o'] db'] eqn:Hc; simpl;
    exact (Create_wf Order_pk_set_pk _ _ _ _ _ Hwf Hc).
Qed.

Lemma payOrder_wf env id db :
  table_wf db → table_wf (snd (payOrder env id db)).
Proof.
  intros Hwf. unfold payOrder. destruct (First _ id db) as [e|o]; [done|].
  destruct (Save _ _ db) as [[e|o'] db'] eqn:Hs; simpl;
    exact (Save_wf Order_pk_set_pk _ _ _ _ _ Hwf Hs).
Qed.

Lemma updateOrder_wf env id body db :
  table_wf db → table_wf (snd (updateOrder env id body db)).
Proof.
  intros Hwf. unfold updateOrder. destruct (First _ id db) as [e|o]; [done|].
  destruct (BindJSON body o) as [o1 [e|]]; [done|].
  destruct (Save _ _ db) as [[e|o'] db'] eqn:Hs; simpl;
    exact (Save_wf Order_pk_set_pk _ _ _ _ _ Hwf Hs).
Qed.

(** C6. MarkPaid, [payOrder]: on a well-formed table and with the store
    answering, an id without a record gives 404 and changes nothing; an id
    with a record gives 200 and the record with the same id, item and
    amount and with paid = true, whatever paid was before, written back
    under the same id; and a second call leaves the table as the first one
    left it. *)
Theorem payOrder_idempotent (env env2 : Env) (id : N) (db : DB) :
  table_wf db →
  first_fault env = None → save_fault env = None →
  first_fault env2 = None → save_fault env2 = None →
  (rows db !! id = None →
     payOrder env id db =
       (Replied StatusNotFound (H_error (ErrText "Order not found")), db)) ∧
  (∀ o, rows db !! id = Some o →
     payOrder env id db =
       (Replied StatusOK
          (H_record {| ID := ID o; Item := Item o; Amount := Amount o; Paid := true |}),
        Table (<[id := {| ID := ID o; Item := Item o; Amount := Amount o;
                          Paid := true |}]> (rows db))
              (next_id db))) ∧
  snd (payOrder env2 id (snd (payOrder env id db))) = snd (payOrder env id db).
Proof.
  intros Hwf Hf1 Hs1 Hf2 Hs2.
  assert (Hhit : ∀ (e : Env) (t : DB) o,
            first_fault e = None → save_fault e = None →
            pk o = id → id ≠ 0%N → rows t !! id = Some o →
            payOrder e id t =
              (Replied StatusOK
                 (H_record {| ID := ID o; Item := Item o; Amount := Amount o;
                              Paid := true |}),
               Table (<[id := {| ID := ID o; Item := Item o; Amount := Amount o;
                                 Paid := true |}]> (rows t))
                     (next_id t))).
  { intros e t o He1 He2 Hpk Hnz Hrow. unfold payOrder, First, Save.
    rewrite He1, He2, Hrow. simpl in *. rewrite Hpk.
    apply N.eqb_neq in Hnz. rewrite Hnz, Hrow. unfold with_Paid.
    by rewrite Hpk. }
  assert (Hmiss : ∀ (e : Env) (t : DB),
            first_fault e = None → rows t !! id = None →
            payOrder e id t =
              (Replied StatusNotFound (H_error (ErrText "Order not found")), t)).
  { intros e t He1 Hrow. unfold payOrder, First. by rewrite He1, Hrow. }
  split; [by apply Hmiss|]. split.
  - intros o Hrow.
    destruct (table_wf_lookup _ _ _ Hwf Hrow) as (Hpk & Hnz & _).
    by apply Hhit.
  - destruct (rows db !! id) as [o|] eqn:Hrow.
    + destruct (table_wf_lookup _ _ _ Hwf Hrow) as (Hpk & Hnz & _).
      rewrite (Hhit env db o) by done. cbn [snd].
      rewrite (Hhit env2 _ {| ID := ID o; Item := Item o; Amount := Amount o;
                              Paid := true |});
        [|done|done|done|done|apply lookup_insert_eq].
      cbn [snd rows next_id ID Item Amount]. by rewrite insert_insert_eq.
    + rewrite (Hmiss env db) by done. simpl. by rewrite (Hmiss env2 db).
Qed.

Lemma payOrder_idempotent_witness :
  table_wf Examples.one_order ∧
  rows Examples.one_order !! 1%N
    = Some {| ID := 1; Item := "t-shirt"; Amount := 100; Paid := false |} ∧
  payOrder Examples.env_down 1 Examples.one_order =
    (Replied StatusOK
       (H_record {| ID := 1; Item := "t-shirt"; Amount := 100; Paid := true |}),
     Table (<[1%N := {| ID := 1; Item := "t-shirt"; Amount := 100; Paid := true |}]>
              (rows Examples.one_order)) 2%N) ∧
  snd (payOrder Examples.env_down 1 (snd (payOrder Examples.env_down 1 Examples.one_order)))
  = snd (payOrder Examples.env_down 1 Examples.one_order).
Proof.
  assert (Hwf : table_wf Examples.one_order).
  { apply (bool_decide_unpack _). vm_compute. reflexivity. }
  split; [exact Hwf|]. split; [reflexivity|].
  destruct (payOrder_idempotent Examples.env_down Examples.env_down 1
              Examples.one_order Hwf eq_refl eq_refl eq_refl eq_refl)
    as (_ & Hpay & Htwice).
  split; [|exact Htwice].
  exact (Hpay {| ID := 1; Item := "t-shirt"; Amount := 100; Paid := false |} eq_refl).
Defined.

(** C7. Round trip: a body whose members are all item and amount, and
    that decodes; the store answers.  Then [createOrder] replies 201 with a
    record under the id the store assigned, [getOrder] on that id replies
    200 with the same record, its paid is false, and its item and amount
    are those the body supplies (the zero value for one it leaves out). *)
Theorem create_then_get (env env' : Env) (ms : list (string * json)) (db : DB) (o : Order) :
  only_fields ["item"; "amount"] ms = true →
  BindJSON (Some (JObject ms)) zero = (o, None) →
  create_fault env = None → first_fault env' = None →
  ∃ o' db',
    createOrder env (Some (JObject ms)) db = (Replied StatusCreated (H_record o'), db') ∧
    ID o' = next_id db ∧
    getOrder env' (ID o') db' = (Replied StatusOK (H_record o'), db') ∧
    Paid o' = false ∧
    field_agrees as_string "" (Item o') (supplied "item" ms) ∧
    field_agrees as_int 0%Z (Amount o') (supplied "amount" ms).
Proof.
  intros Honly Hbind Hcf Hff.
  destruct (OrderDecoding.order_BindJSON_fields _ _ _ Hbind) as (Hid & Hit & Ham & Hpd).
  simpl in Hid, Hit, Ham, Hpd.
  rewrite (supplied_only ["item"; "amount"]) in Hid, Hpd;
    [|done|simpl; intuition discriminate|done|simpl; intuition discriminate].
  simpl in Hid, Hpd.
  exists (with_ID (next_id db) o),
         (Table (<[next_id db := with_ID (next_id db) o]> (rows db)) (N.succ (next_id db))).
  unfold createOrder, createOrderWithContext, Create. rewrite Hbind, Hcf.
  simpl. rewrite Hid. simpl. split; [done|]. split; [done|]. split.
  - unfold getOrder, First. rewrite Hff. simpl. by rewrite lookup_insert_eq.
  - done.
Qed.

Lemma create_then_get_witness :
  ∃ o' db',
    createOrder Examples.env_down Examples.tshirt empty_table
      = (Replied StatusCreated (H_record o'), db') ∧
    ID o' = 1%N ∧
    getOrder Examples.env_down (ID o') db' = (Replied StatusOK (H_record o'), db') ∧
    Paid o' = false ∧ Item o' = "t-shirt" ∧ Amount o' = 100%Z.
Proof.
  destruct (create_then_get Examples.env_down Examples.env_down
              [("item", JString "t-shirt"); ("amount", JInt false 100)]
              empty_table
              {| ID := 0; Item := "t-shirt"; Amount := 100; Paid := false |}
              eq_refl eq_refl eq_refl eq_refl)
    as (o' & db' & Hc & Hid & Hg & Hp & Hit & Ham).
  exists o', db'. simpl in Hit, Ham.
  repeat split; [exact Hc|exact Hid|exact Hg|exact Hp|congruence|congruence].
Defined.

Lemma Create_keeps_fields fault (o o' : Order) (db db' : DB) :
  Create fault o db = (inr o', db') →
  Item o' = Item o ∧ Amount o' = Amount o ∧ Paid o' = Paid o ∧
  ID o' = (if (ID o =? 0)%N then next_id db else ID o).
Proof.
  unfold Create. destruct fault; [done|]. simpl.
  destruct (ID o =? 0)%N; [by intros [= <- <-]|].
  destruct (rows db !! ID o); [done|]. by intros [= <- <-].
Qed.

(** C4, as the code has it.  A POST /orders with paid = true in its body
    creates an order that is paid from the start. *)
Lemma createOrder_paid_from_body_example :
  createOrder Examples.env_down Examples.tshirt_paid empty_table =
    (Replied StatusCreated
       (H_record {| ID := 1; Item := "t-shirt"; Amount := 100; Paid := true |}),
     Table {[ 1%N := {| ID := 1; Item := "t-shirt"; Amount := 100; Paid := true |} ]} 2%N).
Proof. reflexivity. Qed.

(** C4, amended.  For every [createOrder] request that decodes and
    persists, the created record is in the table under its id, and its paid
    is the value the body supplies for paid; it is false when the body
    supplies none. *)
Theorem createOrder_paid_is_supplied (env : Env) (body : option json) (db db' : DB) (o : Order) :
  createOrder env body db = (Replied StatusCreated (H_record o), db') →
  rows db' !! ID o = Some o ∧
  field_agrees as_bool false (Paid o) (supplied "paid" (body_members body)).
Proof.
  unfold createOrder, createOrderWithContext.
  destruct (BindJSON body zero) as [o0 [e|]] eqn:Hbind; [done|].
  destruct (Create _ o0 db) as [[e|o1] db1] eqn:Hc; [done|].
  intros [= <- <-]. split.
  - exact (Create_lookup Order_pk_set_pk _ _ _ _ _ Hc).
  - destruct (OrderDecoding.order_BindJSON_fields _ _ _ Hbind) as (_ & _ & _ & Hpd).
    destruct (Create_keeps_fields _ _ _ _ _ Hc) as (_ & _ & -> & _). exact Hpd.
Qed.

Lemma createOrder_paid_is_supplied_witness :
  rows (snd (createOrder Examples.env_down Examples.tshirt_paid empty_table)) !! 1%N
    = Some {| ID := 1; Item := "t-shirt"; Amount := 100; Paid := true |} ∧
  as_bool (JBool true) = Some true.
Proof.
  exact (createOrder_paid_is_supplied Examples.env_down Examples.tshirt_paid
           empty_table _ _ eq_refl).
Defined.

(** C9, as the code has it.  On a table whose row 1 is the unpaid t-shirt
    order: a body with id 0 makes PUT /orders/1 insert a second row under a
    fresh id and leave row 1 as it was, so the body's id is not the id of
    the persisted record; a body with item null keeps the stored item. *)
Lemma updateOrder_id_0_and_null_example :
  updateOrder Examples.env_down 1 Examples.id_0_paid Examples.one_order =
    (Replied StatusOK
       (H_record {| ID := 2; Item := "t-shirt"; Amount := 100; Paid := true |}),
     Table (<[ 2%N := {| ID := 2; Item := "t-shirt"; Amount := 100; Paid := true |} ]>
             {[ 1%N := {| ID := 1; Item := "t-shirt"; Amount := 100; Paid := false |} ]})
           3%N) ∧
  updateOrder Examples.env_down 1 Examples.item_null Examples.one_order =
    (Replied StatusOK
       (H_record {| ID := 1; Item := "t-shirt"; Amount := 100; Paid := false |}),
     Examples.one_order).
Proof. split; vm_compute; reflexivity. Qed.

(** C9, amended.  [updateOrder] on an id with a record, a body that
    decodes and a store that answers: the record handed to [Save] is the
    overlay of the body on the fetched record (a field keeps its stored
    value unless the body supplies a value other than null for it; id and
    paid are overlaid like item and amount); the reply is 200 with the
    saved record, which has the overlay's item, amount and paid, and the
    overlay's id unless that is 0, in which case the store assigns the id;
    and the table differs from the one before in the row under the saved
    record's id only. *)
Theorem updateOrder_overlay (env : Env) (id : N) (body : option json) (db : DB) (o o' : Order) :
  first_fault env = None → save_fault env = None →
  rows db !! id = Some o →
  BindJSON body o = (o', None) →
  decoded (body_members body) o o' ∧
  ∃ r db',
    updateOrder env id body db = (Replied StatusOK (H_record r), db') ∧
    Item r = Item o' ∧ Amount r = Amount o' ∧ Paid r = Paid o' ∧
    ID r = (if (ID o' =? 0)%N then next_id db else ID o') ∧
    rows db' = <[ID r := r]> (rows db).
Proof.
  intros Hff Hsf Hrow Hbind.
  split; [by apply OrderDecoding.order_BindJSON_fields|].
  unfold updateOrder, First. rewrite Hff, Hrow, Hbind.
  unfold Save, Create. rewrite Hsf. simpl.
  destruct (ID o' =? 0)%N eqn:Hz.
  - eexists _, _. split; [reflexivity|]. simpl. done.
  - destruct (rows db !! ID o') eqn:Hr; eexists _, _;
      (split; [reflexivity|]); simpl; done.
Qed.

Lemma updateOrder_overlay_witness :
  ∃ r db',
    updateOrder Examples.env_down 1 Examples.tshirt_paid Examples.one_order
      = (Replied StatusOK (H_record r), db') ∧
    Paid r = true ∧ ID r = 1%N ∧ rows db' = <[ID r := r]> (rows Examples.one_order).
Proof.
  destruct (updateOrder_overlay Examples.env_down 1 Examples.tshirt_paid
              Examples.one_order
              {| ID := 1; Item := "t-shirt"; Amount := 100; Paid := false |}
              {| ID := 1; Item := "t-shirt"; Amount := 100; Paid := true |}
              eq_refl eq_refl eq_refl eq_refl)
    as (_ & r & db' & Hu & _ & _ & Hp & Hid & Hrows).
  exists r, db'. repeat split; [exact Hu|exact Hp|exact Hid|exact Hrows].
Defined.

(** GET /orders/:id/payment replies 200 or 500 and nothing else, and 500
    with its own message when the payment service's address is not set. *)
Lemma getPayment_status env orderID code b :
  getPayment env orderID = Replied code b →
  code = StatusOK ∨ code = StatusInternalServerError.
Proof.
  unfold getPayment. destruct (String.eqb _ _); [intros [= <- _]; by right|].
  destruct (NewRequest _ _); [intros [= <- _]; by right|].
  destruct (Do _ _) as [e|resp]; [intros [= <- _]; by right|].
  destruct (negb _); [intros [= <- _]; by right|].
  destruct (match Body resp with Some v => _ | None => _ end) as [m [e|]];
    [intros [= <- _]; by right|].
  destruct (status_string m); [intros [= <- _]; by left|done].
Qed.

Lemma getPayment_unconfigured env orderID :
  Getenv env "PAYMENT_SERVICE_URL" = "" →
  getPayment env orderID =
    Replied StatusInternalServerError
      (H_error (ErrText "PAYMENT_SERVICE_URL not configured")).
Proof. intros Hu. unfold getPayment. by rewrite Hu. Qed.

Lemma getPayment_downstream_failure env orderID :
  let req := {| Method := "GET"; Base := Getenv env "PAYMENT_SERVICE_URL";
                Path := PaymentsId orderID; ReqBody := None |} in
  Getenv env "PAYMENT_SERVICE_URL" ≠ "" →
  NewRequest env req = None →
  (∀ resp, Do env req = inr resp →
     StatusCode resp ≠ StatusOK ∨
     (∀ v, Body resp = Some v → snd (decode_map v ∅) ≠ None)) →
  ∃ e, getPayment env orderID = Replied StatusInternalServerError (H_error e).
Proof.
  intros req Henv Hnew Hbad. unfold getPayment.
  apply String.eqb_neq in Henv. rewrite Henv. fold req. rewrite Hnew.
  destruct (Do env req) as [e|resp]; [by eexists|].
  destruct (Hbad resp eq_refl) as [Hcode|Hbody].
  - apply Z.eqb_neq in Hcode. rewrite Hcode. by eexists.
  - destruct (StatusCode resp =? StatusOK)%Z; simpl; [|by eexists].
    destruct (Body resp) as [v|]; [|by eexists].
    specialize (Hbody v eq_refl).
    destruct (decode_map v ∅) as [m [e|]]; [by eexists|done].
Qed.

(** A decoded map holds, for each key, the value of the last member with
    that key. *)
Lemma decode_map_member ms key (m0 : gmap string json) :
  fold_left (fun acc kv => <[fst kv := snd kv]> acc) ms m0 !! key =
  match member key ms with Some v => Some v | None => m0 !! key end.
Proof.
  revert m0. induction ms as [|[k v] ms IH]; intros m0; simpl; [done|].
  rewrite IH. destruct (member key ms); [done|].
  destruct (String.eqb_spec k key) as [->|Hne].
  - apply lookup_insert_eq.
  - by apply lookup_insert_ne.
Qed.

(** C10. GET /orders/:id/payment, when the payment service's address is
    set, the request is sent and answered with 200 and a body that decodes
    into the map: the handler replies 200 with the map when the body's
    status member is a string, and panics in every other case (no status
    member, null, or a value of another kind; a null body). *)
Theorem getPayment_panics_unless_status_string
    (env : Env) (orderID : N) (resp : Response) (v : json) (m : gmap string json) :
  let req := {| Method := "GET"; Base := Getenv env "PAYMENT_SERVICE_URL";
                Path := PaymentsId orderID; ReqBody := None |} in
  Getenv env "PAYMENT_SERVICE_URL" ≠ "" →
  NewRequest env req = None →
  Do env req = inr resp →
  StatusCode resp = StatusOK →
  Body resp = Some v →
  decode_map v ∅ = (m, None) →
  getPayment env orderID =
    match member "status" (body_members (Body resp)) with
    | Some (JString _) => Replied StatusOK (H_map m)
    | _ => Panicked
    end.
Proof.
  intros req Henv Hnew Hdo Hcode Hbody Hdec.
  unfold getPayment. apply String.eqb_neq in Henv. rewrite Henv.
  fold req. rewrite Hnew, Hdo, Hcode, Hbody, Hdec. simpl.
  unfold status_string.
  destruct v; simpl in Hdec; try discriminate; injection Hdec as <-; simpl.
  - by rewrite lookup_empty.
  - rewrite decode_map_member, lookup_empty.
    destruct (member "status" members) as [[]|]; done.
Qed.

Lemma getPayment_panics_unless_status_string_witness :
  getPayment (Examples.env_answer Examples.ok_without_status) 1 = Panicked.
Proof.
  exact (getPayment_panics_unless_status_string
           (Examples.env_answer Examples.ok_without_status) 1
           Examples.ok_without_status _ _
           ltac:(discriminate) eq_refl eq_refl eq_refl eq_refl eq_refl).
Defined.

End OrderFacts.

(** ** The payment service *)

Module PaymentFacts.
Import PaymentService.

Lemma Payment_pk_set_pk n (p : Payment) : pk (set_pk n p) = n.
Proof. reflexivity. Qed.

Lemma processPayment_wf env body db :
  table_wf db → table_wf (snd (processPayment env body db)).
Proof.
  intros Hwf. unfold processPayment.
  destruct (BindJSON body zero) as [p [e|]]; [done|].
  destruct (Create _ _ db) as [[e|p'] db'] eqn:Hc;
    pose proof (Create_wf Payment_pk_set_pk _ _ _ _ _ Hwf Hc) as Hwf'; [done|].
  destruct (String.eqb _ _); [done|].
  destruct (NewRequest _ _); [done|].
  destruct (Do _ _) as [e|resp]; [done|].
  destruct (StatusCode resp =? StatusOK)%Z; done.
Qed.

(** What [processPayment] does once the body is decoded into [p0] and the
    store takes the record: the table gets one row, the record with status
    "success" under its id, and the reply is decided by the callback. *)
Lemma processPayment_persisted env body db p0 :
  BindJSON body zero = (p0, None) →
  create_fault env = None →
  ID p0 = 0%N ∨ rows db !! ID p0 = None →
  ∃ p db',
    Create None (with_Status "success" p0) db = (inr p, db') ∧
    snd (processPayment env body db) = db' ∧
    rows db' = <[ID p := p]> (rows db) ∧
    ID p = (if (ID p0 =? 0)%N then next_id db else ID p0) ∧
    OrderID p = OrderID p0 ∧ Amount p = Amount p0 ∧ Status p = "success" ∧
    ((∃ msg, fst (processPayment env body db) =
               Replied StatusInternalServerError (H_error (ErrText msg))) ∨
     fst (processPayment env body db) = Replied StatusCreated (H_record p)).
Proof.
  intros Hbind Hcf Hfree. unfold processPayment. rewrite Hbind, Hcf.
  assert (∃ p db', Create None (with_Status "success" p0) db = (inr p, db') ∧
            rows db' = <[ID p := p]> (rows db) ∧
            ID p = (if (ID p0 =? 0)%N then next_id db else ID p0) ∧
            OrderID p = OrderID p0 ∧ Amount p = Amount p0 ∧ Status p = "success")
    as (p & db' & Hc & Hrows & Hid & Hoid & Ham & Hst).
  { unfold Create. simpl. destruct (ID p0 =? 0)%N eqn:Hz.
    - eexists _, _. split; [reflexivity|]. simpl. done.
    - destruct Hfree as [Hfree|Hfree]; [apply N.eqb_neq in Hz; done|].
      rewrite Hfree. eexists _, _. split; [reflexivity|]. simpl. done. }
  exists p, db'. rewrite Hc. split; [done|].
  assert (∀ (x : outcome Payment * DB), snd x = db' →
            ((∃ msg, fst x = Replied StatusInternalServerError (H_error (ErrText msg))) ∨
             fst x = Replied StatusCreated (H_record p)) →
            snd x = db' ∧ rows db' = <[ID p := p]> (rows db) ∧
            ID p = (if (ID p0 =? 0)%N then next_id db else ID p0) ∧
            OrderID p = OrderID p0 ∧ Amount p = Amount p0 ∧ Status p = "success" ∧
            ((∃ msg, fst x = Replied StatusInternalServerError (H_error (ErrText msg))) ∨
             fst x = Replied StatusCreated (H_record p))) as Hpack by (intros; done).
  destruct (String.eqb _ _); [apply Hpack; simpl; eauto|].
  destruct (NewRequest _ _); [apply Hpack; simpl; eauto|].
  destruct (Do _ _) as [e|resp]; [apply Hpack; simpl; eauto|].
  destruct (StatusCode resp =? StatusOK)%Z; apply Hpack; simpl; eauto.
Qed.

(** C1. The body decodes, the store takes the record, and the callback to
    the Order Service does not end in a 200.  Then [processPayment] replies
    500, the record is in the table under its id with status "success",
    every row that was there before is still there, and [getPayment] on
    the record's id replies 200 with it. *)
Theorem orphan_payment_remains (env env' : Env) (body : option json) (db : DB) (p0 : Payment) :
  BindJSON body zero = (p0, None) →
  create_fault env = None →
  ID p0 = 0%N ∨ rows db !! ID p0 = None →
  callback_fails env (OrderID p0) →
  first_fault env' = None →
  ∃ p db' msg,
    processPayment env body db =
      (Replied StatusInternalServerError (H_error (ErrText msg)), db') ∧
    rows db' !! ID p = Some p ∧
    Status p = "success" ∧ OrderID p = OrderID p0 ∧ Amount p = Amount p0 ∧
    (∀ k w, k ≠ ID p → rows db !! k = Some w → rows db' !! k = Some w) ∧
    getPayment env' (ID p) db' = (Replied StatusOK (H_record p), db').
Proof.
  intros Hbind Hcf Hfree Hcb Hff.
  destruct (processPayment_persisted env body db p0 Hbind Hcf Hfree)
    as (p & db' & Hc & Hdb & Hrows & Hid & Hoid & Ham & Hst & _).
  assert (Hlook : rows db' !! ID p = Some p) by (rewrite Hrows; apply lookup_insert_eq).
  assert (∃ msg, processPayment env body db =
            (Replied StatusInternalServerError (H_error (ErrText msg)), db'))
    as [msg Hrun].
  { unfold processPayment. rewrite Hbind, Hcf, Hc, Hoid.
    unfold callback_fails in Hcb.
    destruct (String.eqb_spec (Getenv env "ORDER_SERVICE") "") as [Heq|Hne];
      [by eexists|].
    destruct Hcb as [Hcb|[Hcb|[Hcb|Hcb]]]; [done| | |].
    - destruct Hcb as [e ->]. by eexists.
    - destruct (NewRequest _ _); [by eexists|].
      destruct Hcb as [e ->]. by eexists.
    - destruct (NewRequest _ _); [by eexists|].
      destruct Hcb as (resp & -> & Hcode).
      apply Z.eqb_neq in Hcode. rewrite Hcode. by eexists. }
  exists p, db', msg. repeat split; try done.
  - intros k w Hk Hrow. rewrite Hrows. by rewrite lookup_insert_ne.
  - unfold getPayment, First. by rewrite Hff, Hlook.
Qed.

Lemma orphan_payment_remains_witness :
  ∃ p db' msg,
    processPayment Examples.env_down Examples.pay_4 empty_table =
      (Replied StatusInternalServerError (H_error (ErrText msg)), db') ∧
    rows db' !! ID p = Some p ∧ Status p = "success" ∧ OrderID p = 4%N ∧
    getPayment Examples.env_down (ID p) db' = (Replied StatusOK (H_record p), db').
Proof.
  destruct (orphan_payment_remains Examples.env_down Examples.env_down
              Examples.pay_4 empty_table
              {| ID := 0; OrderID := 4; Amount := 100; Status := "pending" |}
              eq_refl eq_refl (or_introl eq_refl)
              (or_intror (or_intror (or_introl
                 (ex_intro _ (ErrNet "connection refused") eq_refl))))
              eq_refl)
    as (p & db' & msg & Hrun & Hlook & Hst & Hoid & _ & _ & Hget).
  exists p, db', msg.
  repeat split; [exact Hrun|exact Hlook|exact Hst|exact Hoid|exact Hget].
Defined.

(** C3, as the code has it.  [getPayment] on an id without a record
    replies 500, as it does for every other failure of the lookup; it has
    no 404. *)
Theorem getPayment_missing_is_500 (env : Env) (id : N) (db : DB) :
  rows db !! id = None →
  getPayment env id db =
    (Replied StatusInternalServerError
       (H_error (match first_fault env with
                 | Some e => e
                 | None => ErrRecordNotFound
                 end)), db).
Proof.
  intros Hrow. unfold getPayment, First. rewrite Hrow.
  destruct (first_fault env); reflexivity.
Qed.

Lemma getPayment_missing_is_500_witness :
  rows (@empty_table Payment) !! 5%N = None ∧
  getPayment Examples.env_down 5 empty_table =
    (Replied StatusInternalServerError (H_error ErrRecordNotFound), empty_table).
Proof.
  split; [reflexivity|].
  exact (getPayment_missing_is_500 Examples.env_down 5 empty_table eq_refl).
Defined.

(** C5. Whatever the request: a Payment that [processPayment] returns was
    returned with 201, has status "success" and is in the table under its
    id; every row of the table after the call was there before or has
    status "success"; and when the body decodes and the store takes the
    record, there is such a row, with the body's order id and amount. *)
Theorem processPayment_status_success (env : Env) (body : option json) (db : DB) :
  (∀ code p, fst (processPayment env body db) = Replied code (H_record p) →
     code = StatusCreated ∧ Status p = "success" ∧
     rows (snd (processPayment env body db)) !! ID p = Some p) ∧
  (∀ k p, rows (snd (processPayment env body db)) !! k = Some p →
     rows db !! k = Some p ∨ Status p = "success") ∧
  (∀ p0, BindJSON body zero = (p0, None) → create_fault env = None →
     ID p0 = 0%N ∨ rows db !! ID p0 = None →
     ∃ p, rows (snd (processPayment env body db)) !! ID p = Some p ∧
          Status p = "success" ∧ OrderID p = OrderID p0 ∧ Amount p = Amount p0).
Proof.
  assert (Hcreate : ∀ f p0 r db',
            Create f (with_Status "success" p0) db = (r, db') →
            (∀ p, r = inr p → Status p = "success" ∧ rows db' !! ID p = Some p) ∧
            (∀ k p, rows db' !! k = Some p → rows db !! k = Some p ∨ Status p = "success")).
  { intros f p0 r db' Hc. split.
    - intros p ->. split; [|exact (Create_lookup Payment_pk_set_pk _ _ _ _ _ Hc)].
      revert Hc. unfold Create. destruct f; [done|]. simpl.
      destruct (ID p0 =? 0)%N; [by intros [= <- _]|].
      destruct (rows db !! ID p0); [done|]. by intros [= <- _].
    - revert Hc. unfold Create. destruct f; [intros [= _ <-]; eauto|]. simpl.
      destruct (ID p0 =? 0)%N.
      + intros [= _ <-] k p. simpl. rewrite lookup_insert.
        case_decide; [intros [= <-]; by right|eauto].
      + destruct (rows db !! ID p0); [intros [= _ <-]; eauto|].
        intros [= _ <-] k p. simpl. rewrite lookup_insert.
        case_decide; [intros [= <-]; by right|eauto]. }
  split; [|split].
  - intros code p. unfold processPayment.
    destruct (BindJSON body zero) as [p0 [e|]]; [done|].
    destruct (Create _ _ db) as [[e|p1] db'] eqn:Hc; [done|].
    destruct (Hcreate _ _ _ _ Hc) as [Hret _]. destruct (Hret p1 eq_refl).
    destruct (String.eqb _ _); [done|].
    destruct (NewRequest _ _); [done|].
    destruct (Do _ _) as [e|resp]; [done|].
    destruct (StatusCode resp =? StatusOK)%Z; [|done].
    simpl. by intros [= <- <-].
  - intros k p. unfold processPayment.
    destruct (BindJSON body zero) as [p0 [e|]]; [eauto|].
    destruct (Create _ _ db) as [[e|p1] db'] eqn:Hc;
      destruct (Hcreate _ _ _ _ Hc) as [_ Hrows]; [by apply Hrows|].
    destruct (String.eqb _ _); [by apply Hrows|].
    destruct (NewRequest _ _); [by apply Hrows|].
    destruct (Do _ _) as [e|resp]; [by apply Hrows|].
    destruct (StatusCode resp =? StatusOK)%Z; by apply Hrows.
  - intros p0 Hbind Hcf Hfree.
    destruct (processPayment_persisted env body db p0 Hbind Hcf Hfree)
      as (p & db' & _ & -> & Hrows & _ & Hoid & Ham & Hst & _).
    exists p. rewrite Hrows. split; [apply lookup_insert_eq|done].
Qed.

Lemma processPayment_status_success_witness :
  fst (processPayment (Examples.env_answer Examples.ok_200) Examples.pay_4 empty_table)
    = Replied StatusCreated
        (H_record {| ID := 1; OrderID := 4; Amount := 100; Status := "success" |}) ∧
  ("success" = "success" ∧
   rows (snd (processPayment (Examples.env_answer Examples.ok_200)
                Examples.pay_4 empty_table)) !! 1%N
     = Some {| ID := 1; OrderID := 4; Amount := 100; Status := "success" |}).
Proof.
  split; [reflexivity|].
  exact (proj2 (proj1 (processPayment_status_success
                         (Examples.env_answer Examples.ok_200) Examples.pay_4 empty_table)
                  StatusCreated
                  {| ID := 1; OrderID := 4; Amount := 100; Status := "success" |}
                  eq_refl)).
Defined.

End PaymentFacts.

(** ** Across the two services *)

Module Settlement.

(** What the payment service writes for a Payment held in Go's types (id
    and order_id within 64 bits unsigned, amount within 64 bits signed)
    decodes into the map without an error: such numbers fit a float64. *)
Lemma to_json_decodes (p : PaymentService.Payment) :
  (PaymentService.ID p <= maxUint64)%N →
  (PaymentService.OrderID p <= maxUint64)%N →
  (minInt64 <= PaymentService.Amount p <= maxInt64)%Z →
  snd (decode_map (PaymentService.to_json p) ∅) = None.
Proof.
  intros Hid Hoid Ham.
  assert (Hfit : ∀ n, (n <= maxUint64)%N → overflows_float64 n 0 = false).
  { intros n Hn. unfold overflows_float64. simpl.
    apply N.leb_gt. rewrite N.mul_1_r.
    apply N.le_lt_trans with maxUint64; [done|]. by vm_compute. }
  unfold decode_map, PaymentService.to_json. cbn [snd forallb fits_float64].
  rewrite (Hfit _ Hid), (Hfit _ Hoid), Hfit; [done|].
  unfold minInt64, maxInt64, maxUint64 in *. lia.
Qed.

(** C2, as the code has it.  GET /orders/:id/payment, with its requests
    reaching a payment service whose store answers: the order id is sent as
    the last segment of /payments/:id, where the payment service reads it
    as the primary key of a Payment.  So the reply is made from the payment
    whose id is the order's id, whatever order that payment pays (200 with
    its fields, once they are decoded into the map), and it is 500 when no
    payment has that id, also when one has that order_id. *)
Theorem getPayment_proxy_by_primary_key (env penv : Env) (db : PaymentService.DB) (id : N) :
  Getenv env "PAYMENT_SERVICE_URL" ≠ "" →
  (∀ req, NewRequest env req = None) →
  Do env = PaymentService.serve_read penv db →
  first_fault penv = None →
  OrderService.getPayment env id =
    match rows db !! id with
    | Some p =>
        match decode_map (PaymentService.to_json p) ∅ with
        | (m, None) => Replied StatusOK (H_map m)
        | (_, Some err) => Replied StatusInternalServerError (H_error err)
        end
    | None =>
        Replied StatusInternalServerError
          (H_error (ErrText "Failed to get payment from payment service"))
    end.
Proof.
  intros Henv Hnew Hdo Hff. unfold OrderService.getPayment.
  apply String.eqb_neq in Henv. rewrite Henv, Hnew, Hdo.
  unfold PaymentService.serve_read, PaymentService.getPayment, First.
  cbn [Path Method String.eqb Ascii.eqb Bool.eqb]. rewrite Hff.
  destruct (rows db !! id) as [p|]; [|done].
  cbn [fst PaymentService.wire StatusCode Body negb Z.eqb StatusOK Pos.eqb].
  destruct (decode_map (PaymentService.to_json p) ∅) as [m [e|]] eqn:Hd; [done|].
  assert (m !! "status" = Some (JString (PaymentService.Status p))) as Hst.
  { revert Hd. unfold decode_map, PaymentService.to_json.
    intros [= <- _]. simpl. apply lookup_insert_eq. }
  unfold OrderService.status_string. by rewrite Hst.
Qed.

Lemma getPayment_proxy_by_primary_key_witness :
  (∃ m, OrderService.getPayment (Examples.env_proxy Examples.payment_1_for_7) 1
          = Replied StatusOK (H_map m) ∧
        m !! "id" = Some (JInt false 1) ∧
        m !! "order_id" = Some (JInt false 7)) ∧
  OrderService.getPayment (Examples.env_proxy Examples.payment_1_for_7) 7
    = Replied StatusInternalServerError
        (H_error (ErrText "Failed to get payment from payment service")).
Proof.
  split.
  - eexists. split.
    + exact (getPayment_proxy_by_primary_key
               (Examples.env_proxy Examples.payment_1_for_7) Examples.env_down
               Examples.payment_1_for_7 1
               ltac:(discriminate) (fun _ => eq_refl) eq_refl eq_refl).
    + split; reflexivity.
  - exact (getPayment_proxy_by_primary_key
             (Examples.env_proxy Examples.payment_1_for_7) Examples.env_down
             Examples.payment_1_for_7 7
             ltac:(discriminate) (fun _ => eq_refl) eq_refl eq_refl).
Defined.

(** C8, as the code has it.  Two POST /orders whose bodies differ in id
    only, on the same empty table: without an id the order gets the
    store's 1, with id 42 it is created as row 42 and returned with id 42.
    The same for two POST /payments. *)
Lemma client_id_decides_row_example :
  OrderService.createOrder Examples.env_down Examples.tshirt empty_table =
    (Replied StatusCreated
       (H_record {| OrderService.ID := 1; OrderService.Item := "t-shirt";
                    OrderService.Amount := 100; OrderService.Paid := false |}),
     Table {[ 1%N := {| OrderService.ID := 1; OrderService.Item := "t-shirt";
                        OrderService.Amount := 100; OrderService.Paid := false |} ]} 2%N) ∧
  OrderService.createOrder Examples.env_down Examples.tshirt_42 empty_table =
    (Replied StatusCreated
       (H_record {| OrderService.ID := 42; OrderService.Item := "t-shirt";
                    OrderService.Amount := 100; OrderService.Paid := false |}),
     Table {[ 42%N := {| OrderService.ID := 42; OrderService.Item := "t-shirt";
                         OrderService.Amount := 100; OrderService.Paid := false |} ]} 43%N) ∧
  PaymentService.processPayment (Examples.env_answer Examples.ok_200)
      Examples.pay_4 empty_table =
    (Replied StatusCreated
       (H_record {| PaymentService.ID := 1; PaymentService.OrderID := 4;
                    PaymentService.Amount := 100; PaymentService.Status := "success" |}),
     Table {[ 1%N := {| PaymentService.ID := 1; PaymentService.OrderID := 4;
                        PaymentService.Amount := 100;
                        PaymentService.Status := "success" |} ]} 2%N) ∧
  PaymentService.processPayment (Examples.env_answer Examples.ok_200)
      Examples.pay_4_as_42 empty_table =
    (Replied StatusCreated
       (H_record {| PaymentService.ID := 42; PaymentService.OrderID := 4;
                    PaymentService.Amount := 100; PaymentService.Status := "success" |}),
     Table {[ 42%N := {| PaymentService.ID := 42; PaymentService.OrderID := 4;
                         PaymentService.Amount := 100;
                         PaymentService.Status := "success" |} ]} 43%N).
Proof. repeat split; vm_compute; reflexivity. Qed.

(** C8, amended.  In both services, for a body that decodes into a record
    [r] and a store that answers: the id of [r] is the one the body
    supplies, 0 when it supplies none.  With id 0 the row is created under
    the store's counter; with another id it is created under that id when
    no row has it; and when a row has it nothing is stored and the reply
    is 500. *)
Theorem create_id_rule :
  (∀ (env : Env) (body : option json) (db : OrderService.DB) (r : OrderService.Order),
     OrderService.BindJSON body OrderService.zero = (r, None) →
     create_fault env = None →
     field_agrees as_uint 0%N (OrderService.ID r) (supplied "id" (body_members body)) ∧
     (OrderService.ID r = 0%N →
        ∃ r' db', OrderService.createOrder env body db
                    = (Replied StatusCreated (H_record r'), db') ∧
                  OrderService.ID r' = next_id db ∧
                  rows db' = <[next_id db := r']> (rows db)) ∧
     (OrderService.ID r ≠ 0%N → rows db !! OrderService.ID r = None →
        ∃ db', OrderService.createOrder env body db
                 = (Replied StatusCreated (H_record r), db') ∧
               rows db' = <[OrderService.ID r := r]> (rows db)) ∧
     (OrderService.ID r ≠ 0%N → is_Some (rows db !! OrderService.ID r) →
        OrderService.createOrder env body db
          = (Replied StatusInternalServerError (H_error ErrDuplicateEntry), db))) ∧
  (∀ (env : Env) (body : option json) (db : PaymentService.DB) (r : PaymentService.Payment),
     PaymentService.BindJSON body PaymentService.zero = (r, None) →
     create_fault env = None →
     field_agrees as_uint 0%N (PaymentService.ID r) (supplied "id" (body_members body)) ∧
     (PaymentService.ID r = 0%N →
        ∃ r', rows (snd (PaymentService.processPayment env body db))
                = <[next_id db := r']> (rows db) ∧
              PaymentService.ID r' = next_id db) ∧
     (PaymentService.ID r ≠ 0%N → rows db !! PaymentService.ID r = None →
        rows (snd (PaymentService.processPayment env body db))
          = <[PaymentService.ID r := PaymentService.with_Status "success" r]> (rows db)) ∧
     (PaymentService.ID r ≠ 0%N → is_Some (rows db !! PaymentService.ID r) →
        PaymentService.processPayment env body db
          = (Replied StatusInternalServerError (H_error ErrDuplicateEntry), db))).
Proof.
  split.
  - intros env body db r Hbind Hcf.
    split; [exact (proj1 (OrderDecoding.order_BindJSON_fields _ _ _ Hbind))|].
    unfold OrderService.createOrder, OrderService.createOrderWithContext, Create.
    rewrite Hbind, Hcf. simpl. repeat split.
    + intros ->. simpl. eexists _, _. split; [reflexivity|]. done.
    + intros Hnz Hfree. apply N.eqb_neq in Hnz. rewrite Hnz, Hfree.
      eexists. split; [reflexivity|]. done.
    + intros Hnz [w Hw]. apply N.eqb_neq in Hnz. by rewrite Hnz, Hw.
  - intros env body db r Hbind Hcf.
    split; [exact (proj1 (PaymentDecoding.payment_BindJSON_fields _ _ _ Hbind))|].
    repeat split.
    + intros Hz.
      destruct (PaymentFacts.processPayment_persisted env body db r Hbind Hcf
                  (or_introl Hz)) as (p & db' & _ & -> & Hrows & Hid & _).
      rewrite Hz in Hid. simpl in Hid. exists p. by rewrite Hrows, Hid.
    + intros Hnz Hfree.
      destruct (PaymentFacts.processPayment_persisted env body db r Hbind Hcf
                  (or_intror Hfree)) as (p & db' & Hc & -> & Hrows & _).
      revert Hc Hrows. unfold Create. simpl.
      apply N.eqb_neq in Hnz. rewrite Hnz, Hfree. by intros [= <- <-].
    + intros Hnz [w Hw]. unfold PaymentService.processPayment, Create.
      rewrite Hbind, Hcf. simpl. apply N.eqb_neq in Hnz. by rewrite Hnz, Hw.
Qed.

Lemma create_id_rule_witness :
  as_uint (JInt false 42) = Some 42%N ∧
  ∃ db', OrderService.createOrder Examples.env_down Examples.tshirt_42 empty_table
           = (Replied StatusCreated
                (H_record {| OrderService.ID := 42; OrderService.Item := "t-shirt";
                             OrderService.Amount := 100; OrderService.Paid := false |}),
              db') ∧
         rows db' = <[42%N := {| OrderService.ID := 42; OrderService.Item := "t-shirt";
                                 OrderService.Amount := 100;
                                 OrderService.Paid := false |}]> ∅.
Proof.
  pose proof (proj1 create_id_rule Examples.env_down Examples.tshirt_42 empty_table
                {| OrderService.ID := 42; OrderService.Item := "t-shirt";
                   OrderService.Amount := 100; OrderService.Paid := false |}
                eq_refl eq_refl) as (Hid & _ & Hfree & _).
  split; [exact Hid|].
  exact (Hfree ltac:(discriminate) eq_refl).
Defined.

End Settlement.

(** ** Which bodies are refused *)

Lemma assign_ok_iff {S A : Type} (conv : json → option A) (set : A → S → S)
    (tgt : string) (v : json) (st : S * option error) :
  snd (assign conv set tgt v st) = None ↔ snd st = None ∧ kind_ok conv v = true.
Proof.
  unfold assign, kind_ok. destruct st as [s [e|]]; destruct v; simpl;
    try (destruct (conv _); simpl); intuition discriminate.
Qed.

Module OrderBodyFacts.
Import OrderService OrderBodies.

Lemma decode_member_ok_iff st kv :
  snd (decode_member st kv) = None ↔ snd st = None ∧ member_ok kv = true.
Proof.
  destruct kv as [k v]. unfold decode_member, member_ok.
  repeat (destruct (names _ k); [apply assign_ok_iff|]). intuition.
Qed.

Lemma decode_members_ok_iff ms st :
  snd (fold_left decode_member ms st) = None ↔
  snd st = None ∧ forallb member_ok ms = true.
Proof.
  revert st. induction ms as [|kv ms IH]; intros st; simpl; [intuition|].
  rewrite IH, decode_member_ok_iff, andb_true_iff. intuition.
Qed.

Lemma BindJSON_ok_iff body o : snd (BindJSON body o) = None ↔ body_ok body = true.
Proof.
  destruct body as [[]|]; simpl; try (intuition discriminate).
  rewrite decode_members_ok_iff. simpl. intuition.
Qed.

(** X1. POST /orders replies 400 exactly for the bodies that are not
    acceptable: no JSON value, a value that is neither null nor an object,
    or an object with a member that selects a field of Order and has a
    value of the wrong kind (a negative or fractional id, an amount outside
    64 bits, a string for paid, ...).  The table is then as it was. *)
Theorem createOrder_bad_request_iff (env : Env) (body : option json) (db : DB) :
  ((∃ b db', createOrder env body db = (Replied StatusBadRequest b, db')) ↔
   body_ok body = false) ∧
  (body_ok body = false → snd (createOrder env body db) = db).
Proof.
  pose proof (BindJSON_ok_iff body zero) as Hok.
  unfold createOrder, createOrderWithContext.
  destruct (BindJSON body zero) as [o [e|]]; simpl in Hok.
  - assert (body_ok body = false) as Hb.
    { destruct (body_ok body); [|done]. by destruct Hok as [_ Hok]; specialize (Hok eq_refl). }
    split; [|done]. split; [done|]. intros _. by eexists _, _.
  - assert (body_ok body = true) as Hb by (by apply Hok).
    rewrite Hb. split; [|done]. split; [|done].
    intros (b & db' & Hrun).
    destruct (Create _ o db) as [[e|o'] db1]; discriminate.
Qed.

Lemma createOrder_bad_request_iff_witness :
  ∃ b db',
    createOrder Examples.env_down
      (Some (JObject [("item", JString "t-shirt"); ("amount", JFloat "99.5")]))
      empty_table = (Replied StatusBadRequest b, db').
Proof.
  exact (proj2 (proj1 (createOrder_bad_request_iff Examples.env_down
                         (Some (JObject [("item", JString "t-shirt");
                                         ("amount", JFloat "99.5")]))
                         empty_table)) eq_refl).
Defined.

End OrderBodyFacts.

Module PaymentBodyFacts.
Import PaymentService PaymentBodies.

Lemma payment_decode_member_ok_iff st kv :
  snd (decode_member st kv) = None ↔ snd st = None ∧ member_ok kv = true.
Proof.
  destruct kv as [k v]. unfold decode_member, member_ok.
  repeat (destruct (names _ k); [apply assign_ok_iff|]). intuition.
Qed.

Lemma payment_decode_members_ok_iff ms st :
  snd (fold_left decode_member ms st) = None ↔
  snd st = None ∧ forallb member_ok ms = true.
Proof.
  revert st. induction ms as [|kv ms IH]; intros st; simpl; [intuition|].
  rewrite IH, payment_decode_member_ok_iff, andb_true_iff. intuition.
Qed.

Lemma payment_BindJSON_ok_iff body p :
  snd (BindJSON body p) = None ↔ body_ok body = true.
Proof.
  destruct body as [[]|]; simpl; try (intuition discriminate).
  rewrite payment_decode_members_ok_iff. simpl. intuition.
Qed.

(** X2. POST /payments replies 400 exactly for the bodies that are not
    acceptable for a Payment, and then stores nothing.  In particular a
    status that is not a string is refused although the status is
    overwritten, and an order_id that is negative, fractional or above 64
    bits is refused before any order is looked for. *)
Theorem processPayment_bad_request_iff (env : Env) (body : option json) (db : DB) :
  ((∃ b db', processPayment env body db = (Replied StatusBadRequest b, db')) ↔
   body_ok body = false) ∧
  (body_ok body = false → snd (processPayment env body db) = db).
Proof.
  pose proof (payment_BindJSON_ok_iff body zero) as Hok.
  unfold processPayment.
  destruct (BindJSON body zero) as [p [e|]]; simpl in Hok.
  - assert (body_ok body = false) as Hb.
    { destruct (body_ok body); [|done]. by destruct Hok as [_ Hok]; specialize (Hok eq_refl). }
    split; [|done]. split; [done|]. intros _. by eexists _, _.
  - assert (body_ok body = true) as Hb by (by apply Hok).
    rewrite Hb. split; [|done]. split; [|done].
    intros (b & db' & Hrun). revert Hrun.
    destruct (Create _ _ db) as [[e|p'] db1]; [done|].
    destruct (String.eqb _ _); [done|].
    destruct (NewRequest _ _); [done|].
    destruct (Do _ _) as [e|resp]; [done|].
    destruct (StatusCode resp =? StatusOK)%Z; done.
Qed.

Lemma processPayment_bad_request_iff_witness :
  ∃ b db',
    processPayment Examples.env_down
      (Some (JObject [("order_id", JInt true 4); ("status", JInt false 1)]))
      empty_table = (Replied StatusBadRequest b, db').
Proof.
  exact (proj2 (proj1 (processPayment_bad_request_iff Examples.env_down
                         (Some (JObject [("order_id", JInt true 4);
                                         ("status", JInt false 1)]))
                         empty_table)) eq_refl).
Defined.

End PaymentBodyFacts.

(** ** More on the table operations *)

Section GormMore.
Context {A : Type} `{Model A}.
Hypothesis pk_set_pk : ∀ n (v : A), pk (set_pk n v) = n.

Lemma Save_lookup fault v v' (t t' : table A) :
  Save fault v t = (inr v', t') → rows t' !! pk v' = Some v'.
Proof.
  unfold Save. destruct fault; [done|].
  destruct (pk v =? 0)%N; [apply (Create_lookup pk_set_pk)|].
  destruct (rows t !! pk v); [|apply (Create_lookup pk_set_pk)].
  intros [= <- <-]. apply lookup_insert_eq.
Qed.

Lemma Save_error fault v e (t t' : table A) :
  Save fault v t = (inl e, t') → t' = t.
Proof.
  unfold Save. destruct fault; [by intros [= _ <-]|].
  destruct (pk v =? 0)%N; [apply Create_error|].
  destruct (rows t !! pk v); [done|apply Create_error].
Qed.

(** On a well-formed table a successful [Create] takes a key that no row
    had. *)
Lemma Create_fresh fault v v' (t t' : table A) :
  table_wf t → Create fault v t = (inr v', t') →
  rows t !! pk v' = None ∧ (next_id t <= next_id t')%N ∧ (pk v' < next_id t')%N.
Proof.
  intros [Hpos Hwf]. unfold Create. destruct fault; [done|].
  destruct (pk v =? 0)%N.
  - intros [= <- <-]. rewrite pk_set_pk. simpl. split; [|lia].
    destruct (rows t !! next_id t) as [w|] eqn:Hw; [|done].
    destruct (Hwf _ _ Hw) as (_ & _ & ?). lia.
  - destruct (rows t !! pk v) eqn:Hv; [done|].
    intros [= <- <-]. simpl. split; [done|lia].
Qed.

End GormMore.

Module OrderMoreFacts.
Import OrderService.

(** X3. The order service writes only when it replies with success: a
    reply of [createOrder] other than 201, and a reply of [updateOrder] or
    [payOrder] other than 200, leaves the table as it was.  So a body that
    is refused half way through decoding, or a store that fails, leaves no
    partial update behind. *)
Theorem order_errors_leave_table (env : Env) (db : DB) :
  (∀ body code b, fst (createOrder env body db) = Replied code b →
     code ≠ StatusCreated → snd (createOrder env body db) = db) ∧
  (∀ id body code b, fst (updateOrder env id body db) = Replied code b →
     code ≠ StatusOK → snd (updateOrder env id body db) = db) ∧
  (∀ id code b, fst (payOrder env id db) = Replied code b →
     code ≠ StatusOK → snd (payOrder env id db) = db).
Proof.
  split; [|split].
  - intros body code b. unfold createOrder, createOrderWithContext.
    destruct (BindJSON body zero) as [o [e|]]; [done|].
    destruct (Create _ o db) as [[e|o'] db'] eqn:Hc; simpl.
    + intros _ _. by apply Create_error in Hc.
    + by intros [= <- _].
  - intros id body code b. unfold updateOrder.
    destruct (First _ id db) as [e|o]; [done|].
    destruct (BindJSON body o) as [o1 [e|]]; [done|].
    destruct (Save _ o1 db) as [[e|o'] db'] eqn:Hs; simpl.
    + intros _ _. by apply Save_error in Hs.
    + by intros [= <- _].
  - intros id code b. unfold payOrder.
    destruct (First _ id db) as [e|o]; [done|].
    destruct (Save _ _ db) as [[e|o'] db'] eqn:Hs; simpl.
    + intros _ _. by apply Save_error in Hs.
    + by intros [= <- _].
Qed.

Lemma order_errors_leave_table_witness :
  snd (updateOrder Examples.env_down 1
         (Some (JObject [("paid", JBool true); ("amount", JString "many")]))
         Examples.one_order) = Examples.one_order.
Proof.
  exact (proj1 (proj2 (order_errors_leave_table Examples.env_down Examples.one_order))
           1%N (Some (JObject [("paid", JBool true); ("amount", JString "many")]))
           StatusBadRequest (H_error (ErrUnmarshalType "Order.amount"))
           eq_refl ltac:(discriminate)).
Defined.

(** X4. What PUT /orders/:id returns is what GET returns next: after a
    200 with record [r], [getOrder] on [r]'s id replies 200 with [r].  On
    a well-formed table and with a body that supplies no id, [r]'s id is
    the id of the path. *)
Theorem update_then_get (env env' : Env) (id : N) (body : option json)
    (db db' : DB) (r : Order) :
  updateOrder env id body db = (Replied StatusOK (H_record r), db') →
  first_fault env' = None →
  getOrder env' (ID r) db' = (Replied StatusOK (H_record r), db') ∧
  (table_wf db → supplied "id" (body_members body) = None → ID r = id).
Proof.
  unfold updateOrder, First. intros Hrun Hff.
  destruct (first_fault env); [done|].
  destruct (rows db !! id) as [o|] eqn:Hrow; [|done].
  destruct (BindJSON body o) as [o1 [e|]] eqn:Hbind; [done|].
  destruct (Save _ o1 db) as [[e|o2] db2] eqn:Hs; [done|].
  injection Hrun as <- <-. split.
  - unfold getOrder, First. rewrite Hff.
    pose proof (Save_lookup OrderFacts.Order_pk_set_pk _ _ _ _ _ Hs) as Hl.
    simpl in Hl. by rewrite Hl.
  - intros Hwf Hnoid.
    destruct (OrderDecoding.order_BindJSON_fields _ _ _ Hbind) as (Hid & _).
    rewrite Hnoid in Hid. simpl in Hid.
    destruct (table_wf_lookup _ _ _ Hwf Hrow) as (Hpk & Hnz & _). simpl in Hpk.
    revert Hs. unfold Save. destruct (save_fault env); [done|]. simpl.
    rewrite Hid, Hpk. apply N.eqb_neq in Hnz. rewrite Hnz.
    destruct (rows db !! id); [|done]. intros [= <- _]. simpl. congruence.
Qed.

Lemma update_then_get_witness :
  getOrder Examples.env_down 1
    (snd (updateOrder Examples.env_down 1 Examples.tshirt_paid Examples.one_order))
  = (Replied StatusOK
       (H_record {| ID := 1; Item := "t-shirt"; Amount := 100; Paid := true |}),
     snd (updateOrder Examples.env_down 1 Examples.tshirt_paid Examples.one_order)).
Proof.
  exact (proj1 (update_then_get Examples.env_down Examples.env_down 1
                  Examples.tshirt_paid Examples.one_order _
                  {| ID := 1; Item := "t-shirt"; Amount := 100; Paid := true |}
                  eq_refl eq_refl)).
Defined.

(** X5. PUT /orders/:id/pay on a well-formed table, whatever the store
    does: no other row changes, the counter stays, and the row of the path
    id stays as it was or becomes the same record with paid = true (item,
    amount and id untouched). *)
Theorem payOrder_frame (env : Env) (id : N) (db : DB) :
  table_wf db →
  next_id (snd (payOrder env id db)) = next_id db ∧
  (∀ k, k ≠ id → rows (snd (payOrder env id db)) !! k = rows db !! k) ∧
  (rows db !! id = None → rows (snd (payOrder env id db)) !! id = None) ∧
  (∀ o, rows db !! id = Some o →
     rows (snd (payOrder env id db)) !! id = Some o ∨
     rows (snd (payOrder env id db)) !! id = Some (with_Paid true o)).
Proof.
  intros Hwf.
  assert (Hsame : snd (payOrder env id db) = db →
            next_id (snd (payOrder env id db)) = next_id db ∧
            (∀ k, k ≠ id → rows (snd (payOrder env id db)) !! k = rows db !! k) ∧
            (rows db !! id = None → rows (snd (payOrder env id db)) !! id = None) ∧
            (∀ o, rows db !! id = Some o →
               rows (snd (payOrder env id db)) !! id = Some o ∨
               rows (snd (payOrder env id db)) !! id = Some (with_Paid true o))).
  { intros ->. repeat split; eauto. }
  revert Hsame. unfold payOrder, First.
  destruct (first_fault env); [by intros Hsame; apply Hsame|].
  destruct (rows db !! id) as [o|] eqn:Hrow; [|by intros Hsame; apply Hsame].
  destruct (table_wf_lookup _ _ _ Hwf Hrow) as (Hpk & Hnz & _). simpl in Hpk.
  unfold Save. destruct (save_fault env); [by intros Hsame; apply Hsame|].
  simpl. rewrite Hpk. apply N.eqb_neq in Hnz. rewrite Hnz, Hrow. simpl.
  intros _. repeat split.
  - intros k Hk. by rewrite lookup_insert_ne.
  - done.
  - intros o' [= <-]. right. apply lookup_insert_eq.
Qed.

Lemma payOrder_frame_witness :
  next_id (snd (payOrder Examples.env_down 1 Examples.one_order)) = 2%N.
Proof.
  exact (proj1 (payOrder_frame Examples.env_down 1 Examples.one_order
                  ltac:(apply (bool_decide_unpack _); vm_compute; reflexivity))).
Defined.

(** X6. POST /orders on a well-formed table never writes over an order:
    when it replies 201, the id of the record it returns was not in use
    before, every row that was there is still there unchanged, and the
    counter has not gone back and is above the new id.  This holds with
    and without an id in the body. *)
Theorem createOrder_fresh (env : Env) (body : option json) (db db' : DB) (r : Order) :
  table_wf db →
  createOrder env body db = (Replied StatusCreated (H_record r), db') →
  rows db !! ID r = None ∧
  (∀ k w, rows db !! k = Some w → rows db' !! k = Some w) ∧
  (next_id db <= next_id db')%N ∧ (ID r < next_id db')%N.
Proof.
  intros Hwf. unfold createOrder, createOrderWithContext.
  destruct (BindJSON body zero) as [o [e|]]; [done|].
  destruct (Create _ o db) as [[e|o'] db1] eqn:Hc; [done|].
  intros [= <- <-].
  destruct (Create_fresh OrderFacts.Order_pk_set_pk _ _ _ _ _ Hwf Hc)
    as (Hnew & Hle & Hlt).
  repeat split; [done| |done|done].
  intros k w Hk. exact (Create_frame _ _ _ _ _ _ _ Hwf Hc Hk).
Qed.

Lemma createOrder_fresh_witness :
  rows Examples.one_order !! 2%N = None ∧ (2 < 3)%N.
Proof.
  destruct (createOrder_fresh Examples.env_down Examples.tshirt_paid
              Examples.one_order _
              {| ID := 2; Item := "t-shirt"; Amount := 100; Paid := true |}
              ltac:(apply (bool_decide_unpack _); vm_compute; reflexivity)
              eq_refl) as (Hnew & _ & _ & Hlt).
  split; [exact Hnew|exact Hlt].
Defined.

End OrderMoreFacts.

(** ** Any sequence of requests *)

Section GormKeys.
Context {A : Type} `{Model A}.

Lemma Create_keys fault v r (t t' : table A) k :
  Create fault v t = (r, t') →
  (is_Some (rows t !! k) → is_Some (rows t' !! k)) ∧ (next_id t <= next_id t')%N.
Proof.
  unfold Create. destruct fault; [intros [= _ <-]; split; [done|lia]|].
  destruct (pk v =? 0)%N.
  - intros [= _ <-]. simpl. split; [|lia]. rewrite lookup_insert.
    case_decide; eauto.
  - destruct (rows t !! pk v); [intros [= _ <-]; split; [done|lia]|].
    intros [= _ <-]. simpl. split; [|lia]. rewrite lookup_insert.
    case_decide; eauto.
Qed.

Lemma Save_keys fault v r (t t' : table A) k :
  Save fault v t = (r, t') →
  (is_Some (rows t !! k) → is_Some (rows t' !! k)) ∧ (next_id t <= next_id t')%N.
Proof.
  unfold Save. destruct fault; [intros [= _ <-]; split; [done|lia]|].
  destruct (pk v =? 0)%N; [apply Create_keys|].
  destruct (rows t !! pk v); [|apply Create_keys].
  intros [= _ <-]. simpl. split; [|lia]. rewrite lookup_insert.
  case_decide; eauto.
Qed.

End GormKeys.

Module OrderRunFacts.
Import OrderService OrderRouter.

Lemma step_wf c db : table_wf db → table_wf (snd (step c db)).
Proof.
  intros Hwf. unfold step. destruct (snd c); simpl;
    auto using OrderFacts.createOrder_wf, OrderFacts.updateOrder_wf,
               OrderFacts.payOrder_wf.
  unfold getOrder. by destruct (First _ _ _).
Qed.

Lemma step_keys c db k :
  (is_Some (rows db !! k) → is_Some (rows (snd (step c db)) !! k)) ∧
  (next_id db <= next_id (snd (step c db)))%N.
Proof.
  assert (Hsame : (is_Some (rows db !! k) → is_Some (rows db !! k)) ∧
                  (next_id db <= next_id db)%N) by (split; [done|lia]).
  unfold step. destruct (snd c) as [body|id|id body|id|id]; simpl.
  - unfold createOrder, createOrderWithContext.
    destruct (BindJSON body zero) as [o [e|]]; [done|].
    destruct (Create _ o db) as [[e|o'] db'] eqn:Hc; simpl;
      exact (Create_keys _ _ _ _ _ k Hc).
  - unfold getOrder. by destruct (First _ _ _).
  - unfold updateOrder. destruct (First _ _ _) as [e|o]; [done|].
    destruct (BindJSON body o) as [o1 [e|]]; [done|].
    destruct (Save _ o1 db) as [[e|o'] db'] eqn:Hs; simpl;
      exact (Save_keys _ _ _ _ _ k Hs).
  - unfold payOrder. destruct (First _ _ _) as [e|o]; [done|].
    destruct (Save _ _ db) as [[e|o'] db'] eqn:Hs; simpl;
      exact (Save_keys _ _ _ _ _ k Hs).
  - done.
Qed.

(** X7. Whatever requests the order service serves, one after another
    and with whatever store faults and peer answers: a well-formed table
    stays well formed (every order under its own id, no id 0, the counter
    above every id), no order is ever deleted, and the counter never goes
    back. *)
Theorem order_run_keeps_orders (cs : list (Env * call)) (db : DB) :
  table_wf db →
  table_wf (run cs db) ∧
  (∀ k, is_Some (rows db !! k) → is_Some (rows (run cs db) !! k)) ∧
  (next_id db <= next_id (run cs db))%N.
Proof.
  revert db. induction cs as [|c cs IH]; intros db Hwf.
  - unfold run. simpl. split; [done|]. split; [done|lia].
  - change (run (c :: cs) db) with (run cs (snd (step c db))).
    destruct (IH (snd (step c db)) (step_wf c db Hwf)) as (Hwf' & Hkeys & Hnext).
    split; [done|]. split.
    + intros k Hk. apply Hkeys. by apply step_keys.
    + pose proof (proj2 (step_keys c db 0%N)). lia.
Qed.

Lemma order_run_keeps_orders_witness :
  table_wf (run [(Examples.env_down, PostOrders Examples.tshirt_42);
                 (Examples.env_down, PutOrdersId 42 Examples.id_0_paid);
                 (Examples.env_down, PutOrdersIdPay 7)] empty_table).
Proof.
  exact (proj1 (order_run_keeps_orders
                  [(Examples.env_down, PostOrders Examples.tshirt_42);
                   (Examples.env_down, PutOrdersId 42 Examples.id_0_paid);
                   (Examples.env_down, PutOrdersIdPay 7)] empty_table
                  ltac:(apply (bool_decide_unpack _); vm_compute; reflexivity))).
Defined.

End OrderRunFacts.

Module PaymentRunFacts.
Import PaymentService PaymentRouter.

Lemma payment_step_wf c db : table_wf db → table_wf (snd (step c db)).
Proof.
  intros Hwf. unfold step. destruct (snd c); simpl.
  - by apply PaymentFacts.processPayment_wf.
  - unfold getPayment. by destruct (First _ _ _).
Qed.

(** [processPayment] on a well-formed table changes no row that was
    there. *)
Lemma processPayment_frame env body db k p :
  table_wf db → rows db !! k = Some p →
  rows (snd (processPayment env body db)) !! k = Some p.
Proof.
  intros Hwf Hk. unfold processPayment.
  destruct (BindJSON body zero) as [p0 [e|]]; [done|].
  destruct (Create _ _ db) as [[e|p1] db'] eqn:Hc;
    pose proof (Create_frame _ _ _ _ _ _ _ Hwf Hc Hk) as Hk'; [done|].
  destruct (String.eqb _ _); [done|].
  destruct (NewRequest _ _); [done|].
  destruct (Do _ _) as [e|resp]; [done|].
  destruct (StatusCode resp =? StatusOK)%Z; done.
Qed.

Lemma payment_step_frame c db k p :
  table_wf db → rows db !! k = Some p → rows (snd (step c db)) !! k = Some p.
Proof.
  intros Hwf Hk. unfold step. destruct (snd c); simpl.
  - by apply processPayment_frame.
  - unfold getPayment. by destruct (First _ _ _).
Qed.

(** Every row after [processPayment] was there before or has status
    "success". *)
Lemma processPayment_rows env body db k p :
  rows (snd (processPayment env body db)) !! k = Some p →
  rows db !! k = Some p ∨ Status p = "success".
Proof.
  unfold processPayment.
  destruct (BindJSON body zero) as [p0 [e|]]; [eauto|].
  assert (∀ r db', Create (create_fault env) (with_Status "success" p0) db = (r, db') →
            rows db' !! k = Some p → rows db !! k = Some p ∨ Status p = "success")
    as Hcreate.
  { intros r db'. unfold Create. destruct (create_fault env); [intros [= _ <-]; eauto|].
    simpl. destruct (ID p0 =? 0)%N.
    - intros [= _ <-]. simpl. rewrite lookup_insert.
      case_decide; [intros [= <-]; by right|eauto].
    - destruct (rows db !! ID p0); [intros [= _ <-]; eauto|].
      intros [= _ <-]. simpl. rewrite lookup_insert.
      case_decide; [intros [= <-]; by right|eauto]. }
  destruct (Create _ _ db) as [[e|p1] db'] eqn:Hc;
    specialize (Hcreate _ _ eq_refl); [done|].
  destruct (String.eqb _ _); [done|].
  destruct (NewRequest _ _); [done|].
  destruct (Do _ _) as [e|resp]; [done|].
  destruct (StatusCode resp =? StatusOK)%Z; done.
Qed.

Lemma payment_step_success c db :
  (∀ k p, rows db !! k = Some p → Status p = "success") →
  (∀ k p, rows (snd (step c db)) !! k = Some p → Status p = "success").
Proof.
  intros Hall k p. unfold step. destruct (snd c) as [body|id]; simpl.
  - intros Hk. destruct (processPayment_rows _ _ _ _ _ Hk); eauto.
  - unfold getPayment. destruct (First _ _ _); simpl; eauto.
Qed.

(** X8. Whatever requests the payment service serves, one after
    another: if every payment in the table has status "success" (as in the
    empty table), so has every payment in the table afterwards, and a
    well-formed table stays well formed.  No request leaves a payment with
    status pending or failed. *)
Theorem payment_run_all_success (cs : list (Env * call)) (db : DB) :
  table_wf db →
  (∀ k p, rows db !! k = Some p → Status p = "success") →
  table_wf (run cs db) ∧
  (∀ k p, rows (run cs db) !! k = Some p → Status p = "success").
Proof.
  revert db. induction cs as [|c cs IH]; intros db Hwf Hall; [done|].
  change (run (c :: cs) db) with (run cs (snd (step c db))).
  apply IH; [by apply payment_step_wf|by apply payment_step_success].
Qed.

Lemma payment_run_all_success_witness :
  rows (run [(Examples.env_down, PostPayments Examples.pay_4);
             (Examples.env_answer Examples.ok_200, PostPayments Examples.pay_4_as_42)]
          empty_table) !! 42%N
    = Some {| ID := 42; OrderID := 4; Amount := 100; Status := "success" |} ∧
  Status {| ID := 42; OrderID := 4; Amount := 100; Status := "success" |} = "success".
Proof.
  split; [reflexivity|].
  exact (proj2 (payment_run_all_success
                  [(Examples.env_down, PostPayments Examples.pay_4);
                   (Examples.env_answer Examples.ok_200,
                    PostPayments Examples.pay_4_as_42)]
                  empty_table
                  ltac:(apply (bool_decide_unpack _); vm_compute; reflexivity)
                  ltac:(intros k p Hk; vm_compute in Hk; discriminate))
           42%N {| ID := 42; OrderID := 4; Amount := 100; Status := "success" |}
           eq_refl).
Defined.

(** X9. A payment is never changed or deleted: on a well-formed table, a
    row that is there is there, identical, after any sequence of requests
    to the payment service. *)
Theorem payment_rows_immutable (cs : list (Env * call)) (db : DB) (k : N) (p : Payment) :
  table_wf db →
  rows db !! k = Some p →
  rows (run cs db) !! k = Some p.
Proof.
  revert db. induction cs as [|c cs IH]; intros db Hwf Hk; [done|].
  change (run (c :: cs) db) with (run cs (snd (step c db))).
  apply IH; [by apply payment_step_wf|by apply payment_step_frame].
Qed.

Lemma payment_rows_immutable_witness :
  rows (run [(Examples.env_answer Examples.ok_200, PostPayments Examples.pay_4)]
          Examples.payment_1_for_7) !! 1%N
  = Some {| ID := 1; OrderID := 7; Amount := 100; Status := "success" |}.
Proof.
  exact (payment_rows_immutable
           [(Examples.env_answer Examples.ok_200, PostPayments Examples.pay_4)]
           Examples.payment_1_for_7 1
           {| ID := 1; OrderID := 7; Amount := 100; Status := "success" |}
           ltac:(apply (bool_decide_unpack _); vm_compute; reflexivity)
           eq_refl).
Defined.

End PaymentRunFacts.

(** ** The settlement across the two services *)

Module SystemFacts.
Import PaymentService System.

(** [payOrder] on a row that is there, with the store answering. *)
Lemma payOrder_hit (env : Env) (id : N) (db : OrderService.DB) (o : OrderService.Order) :
  table_wf db → first_fault env = None → save_fault env = None →
  rows db !! id = Some o →
  OrderService.payOrder env id db =
    (Replied StatusOK (H_record (OrderService.with_Paid true o)),
     Table (<[id := OrderService.with_Paid true o]> (rows db)) (next_id db)).
Proof.
  intros Hwf Hff Hsf Hrow.
  destruct (table_wf_lookup _ _ _ Hwf Hrow) as (Hpk & Hnz & _). simpl in Hpk.
  unfold OrderService.payOrder, First, Save. rewrite Hff, Hsf, Hrow. simpl.
  rewrite Hpk. apply N.eqb_neq in Hnz. by rewrite Hnz, Hrow.
Qed.

(** [payOrder] when the lookup fails. *)
Lemma payOrder_miss (env : Env) (id : N) (db : OrderService.DB) :
  is_Some (first_fault env) ∨ rows db !! id = None →
  OrderService.payOrder env id db =
    (Replied StatusNotFound (H_error (ErrText "Order not found")), db).
Proof.
  unfold OrderService.payOrder, First.
  intros [[e ->]|Hrow]; [done|]. destruct (first_fault env); [done|].
  by rewrite Hrow.
Qed.

(** [processPayment_in] with any peer agrees, in its reply and its
    payments table, with [processPayment] in an environment whose [Do]
    gives the answer the peer gives in its state before the call. *)
Lemma processPayment_in_answer {W : Type} (env : Env)
    (send : Request → W → (error + Response) * W)
    (body : option json) (db : DB) (w : W) :
  fst (processPayment_in env send body db w) =
  processPayment
    {| Getenv := Getenv env; NewRequest := NewRequest env;
       Do := fun req => fst (send req w);
       first_fault := first_fault env; create_fault := create_fault env;
       save_fault := save_fault env |} body db.
Proof.
  unfold processPayment_in, processPayment. simpl.
  destruct (BindJSON body zero) as [p0 [e|]]; [done|].
  destruct (Create _ _ db) as [[e|p] db']; [done|].
  destruct (String.eqb _ _); [done|].
  destruct (NewRequest _ _); [done|].
  destruct (send _ w) as [[e|resp] w']; simpl; [done|].
  destruct (StatusCode resp =? StatusOK)%Z; done.
Qed.

(** The settlement when everything answers: the exact result. *)
Lemma settle_ok penv oenv body pdb odb p0 o :
  BindJSON body zero = (p0, None) →
  create_fault penv = None →
  ID p0 = 0%N ∨ rows pdb !! ID p0 = None →
  Getenv penv "ORDER_SERVICE" ≠ "" →
  NewRequest penv (pay_request (Getenv penv "ORDER_SERVICE") (OrderID p0)) = None →
  table_wf odb → rows odb !! OrderID p0 = Some o →
  first_fault oenv = None → save_fault oenv = None →
  ∃ p pdb',
    Create None (with_Status "success" p0) pdb = (inr p, pdb') ∧
    settle penv oenv None body pdb odb =
      (Replied StatusCreated (H_record p), pdb',
       Table (<[OrderID p0 := OrderService.with_Paid true o]> (rows odb)) (next_id odb)).
Proof.
  intros Hbind Hcf Hfree Henv Hnew Hwf Hrow Hff Hsf.
  destruct (PaymentFacts.processPayment_persisted penv body pdb p0 Hbind Hcf Hfree)
    as (p & pdb' & Hc & _ & _ & _ & Hoid & _).
  exists p, pdb'. split; [done|].
  unfold settle, processPayment_in. rewrite Hbind, Hcf, Hc, Hoid.
  apply String.eqb_neq in Henv. rewrite Henv, Hnew.
  unfold deliver, OrderRouter.serve_pay. simpl.
  rewrite (payOrder_hit oenv _ odb o) by done. simpl. done.
Qed.

(** X11. Settlement: an order that exists in a well-formed orders table,
    a POST /payments whose body decodes and names that order, both stores
    answering, the order service's address set and the request delivered.
    Then the reply is 201 with a payment of status "success" that is in
    the payments table, the order's row is the same order with paid =
    true, and GET /orders/:id returns it so. *)
Theorem settlement_success (penv oenv env' : Env) (body : option json)
    (pdb : DB) (odb : OrderService.DB) (p0 : Payment) (o : OrderService.Order) :
  BindJSON body zero = (p0, None) →
  create_fault penv = None →
  ID p0 = 0%N ∨ rows pdb !! ID p0 = None →
  Getenv penv "ORDER_SERVICE" ≠ "" →
  NewRequest penv (pay_request (Getenv penv "ORDER_SERVICE") (OrderID p0)) = None →
  table_wf odb → rows odb !! OrderID p0 = Some o →
  first_fault oenv = None → save_fault oenv = None →
  first_fault env' = None →
  ∃ p pdb' odb',
    settle penv oenv None body pdb odb = (Replied StatusCreated (H_record p), pdb', odb') ∧
    Status p = "success" ∧ OrderID p = OrderID p0 ∧ Amount p = Amount p0 ∧
    rows pdb' !! ID p = Some p ∧
    OrderService.getOrder env' (OrderID p0) odb' =
      (Replied StatusOK (H_record (OrderService.with_Paid true o)), odb').
Proof.
  intros Hbind Hcf Hfree Henv Hnew Hwf Hrow Hff Hsf Hff'.
  destruct (settle_ok penv oenv body pdb odb p0 o) as (p & pdb' & Hc & Hrun); try done.
  destruct (PaymentFacts.processPayment_persisted penv body pdb p0 Hbind Hcf Hfree)
    as (p' & pdb'' & Hc' & _ & _ & _ & Hoid & Ham & Hst & _).
  rewrite Hc in Hc'. injection Hc' as <- <-.
  eexists p, pdb', _. split; [exact Hrun|].
  repeat split; try done.
  - exact (Create_lookup PaymentFacts.Payment_pk_set_pk _ _ _ _ _ Hc).
  - unfold OrderService.getOrder, First. rewrite Hff'. simpl.
    by rewrite lookup_insert_eq.
Qed.

Lemma settlement_success_witness :
  ∃ p pdb' odb',
    settle Examples.env_down Examples.env_down None Examples.pay_4
      empty_table SystemExamples.order_4
      = (Replied StatusCreated (H_record p), pdb', odb') ∧
    Status p = "success" ∧ OrderID p = 4%N ∧
    OrderService.getOrder Examples.env_down 4 odb' =
      (Replied StatusOK
         (H_record {| OrderService.ID := 4; OrderService.Item := "t-shirt";
                      OrderService.Amount := 100; OrderService.Paid := true |}), odb').
Proof.
  destruct (settlement_success Examples.env_down Examples.env_down Examples.env_down
              Examples.pay_4 empty_table SystemExamples.order_4
              {| ID := 0; OrderID := 4; Amount := 100; Status := "pending" |}
              {| OrderService.ID := 4; OrderService.Item := "t-shirt";
                 OrderService.Amount := 100; OrderService.Paid := false |}
              eq_refl eq_refl (or_introl eq_refl) ltac:(discriminate) eq_refl
              ltac:(apply (bool_decide_unpack _); vm_compute; reflexivity)
              eq_refl eq_refl eq_refl eq_refl)
    as (p & pdb' & odb' & Hrun & Hst & Hoid & _ & _ & Hget).
  exists p, pdb', odb'. repeat split; [exact Hrun|exact Hst|exact Hoid|exact Hget].
Defined.

(** X12. A payment for an order that is not there: the body decodes, the
    payments store takes the record, the request is delivered, and the
    order service finds no such order (or its lookup fails).  The order is
    not looked for before the payment is written: the reply is 500, the
    payment is in the payments table with status "success", and the orders
    table is as it was. *)
Theorem unvalidated_reference (penv oenv : Env) (body : option json)
    (pdb : DB) (odb : OrderService.DB) (p0 : Payment) :
  BindJSON body zero = (p0, None) →
  create_fault penv = None →
  ID p0 = 0%N ∨ rows pdb !! ID p0 = None →
  Getenv penv "ORDER_SERVICE" ≠ "" →
  NewRequest penv (pay_request (Getenv penv "ORDER_SERVICE") (OrderID p0)) = None →
  is_Some (first_fault oenv) ∨ rows odb !! OrderID p0 = None →
  ∃ p pdb',
    settle penv oenv None body pdb odb =
      (Replied StatusInternalServerError
         (H_error (ErrText "Failed to update order service")), pdb', odb) ∧
    rows pdb' !! ID p = Some p ∧ Status p = "success" ∧ OrderID p = OrderID p0.
Proof.
  intros Hbind Hcf Hfree Henv Hnew Hmiss.
  destruct (PaymentFacts.processPayment_persisted penv body pdb p0 Hbind Hcf Hfree)
    as (p & pdb' & Hc & _ & _ & _ & Hoid & _ & Hst & _).
  exists p, pdb'. split.
  - unfold settle, processPayment_in. rewrite Hbind, Hcf, Hc, Hoid.
    apply String.eqb_neq in Henv. rewrite Henv, Hnew.
    unfold deliver, OrderRouter.serve_pay. simpl.
    by rewrite (payOrder_miss oenv _ odb Hmiss).
  - split; [|done].
    exact (Create_lookup PaymentFacts.Payment_pk_set_pk _ _ _ _ _ Hc).
Qed.

Lemma unvalidated_reference_witness :
  ∃ p pdb',
    settle Examples.env_down Examples.env_down None Examples.pay_4
      empty_table Examples.one_order =
      (Replied StatusInternalServerError
         (H_error (ErrText "Failed to update order service")), pdb', Examples.one_order) ∧
    rows pdb' !! ID p = Some p ∧ Status p = "success" ∧ OrderID p = 4%N.
Proof.
  exact (unvalidated_reference Examples.env_down Examples.env_down Examples.pay_4
           empty_table Examples.one_order
           {| ID := 0; OrderID := 4; Amount := 100; Status := "pending" |}
           eq_refl eq_refl (or_introl eq_refl) ltac:(discriminate) eq_refl
           (or_intror eq_refl)).
Defined.

Lemma Create_payment_fields fault (v p : Payment) (t t' : DB) :
  Create fault v t = (inr p, t') →
  Status p = Status v ∧ OrderID p = OrderID v ∧ Amount p = Amount v.
Proof.
  unfold Create. destruct fault; [done|]. simpl.
  destruct (ID v =? 0)%N; [by intros [= <- _]|].
  destruct (rows t !! ID v); [done|]. by intros [= <- _].
Qed.

(** X13. Settlement marks an order only for a committed payment: on a
    well-formed orders table, whatever the body, the stores and the link
    do, POST /payments leaves the orders table as it was, or the payments
    table holds a payment with status "success" for an order that was
    there, and the orders table differs only in that order's row, which is
    the same order with paid = true. *)
Theorem settle_marks_only_after_commit (penv oenv : Env) (link : option error)
    (body : option json) (pdb : DB) (odb : OrderService.DB) :
  table_wf odb →
  snd (settle penv oenv link body pdb odb) = odb ∨
  ∃ p o,
    rows (snd (fst (settle penv oenv link body pdb odb))) !! ID p = Some p ∧
    Status p = "success" ∧
    rows odb !! OrderID p = Some o ∧
    snd (settle penv oenv link body pdb odb) =
      Table (<[OrderID p := OrderService.with_Paid true o]> (rows odb)) (next_id odb).
Proof.
  intros Hwf. unfold settle, processPayment_in.
  destruct (BindJSON body zero) as [p0 [e|]]; [by left|].
  destruct (Create _ _ pdb) as [[e|p] pdb'] eqn:Hc; [by left|].
  destruct (String.eqb _ _); [by left|].
  destruct (NewRequest _ _); [by left|].
  pose proof (Create_lookup PaymentFacts.Payment_pk_set_pk _ _ _ _ _ Hc) as Hrow.
  destruct (Create_payment_fields _ _ _ _ _ Hc) as (Hst & _). simpl in Hrow, Hst.
  assert (Hpay : snd (OrderService.payOrder oenv (OrderID p) odb) = odb ∨
            ∃ o, rows odb !! OrderID p = Some o ∧
                 snd (OrderService.payOrder oenv (OrderID p) odb) =
                   Table (<[OrderID p := OrderService.with_Paid true o]> (rows odb))
                         (next_id odb)).
  { destruct (first_fault oenv) eqn:Hff.
    { left. rewrite payOrder_miss; [done|]. left. rewrite Hff. eauto. }
    destruct (rows odb !! OrderID p) as [o|] eqn:Ho.
    2:{ left. rewrite payOrder_miss; [done|]. by right. }
    destruct (save_fault oenv) eqn:Hsf.
    { left. unfold OrderService.payOrder, First, Save. by rewrite Hff, Ho, Hsf. }
    right. exists o. split; [done|]. by rewrite (payOrder_hit oenv _ odb o). }
  unfold deliver, OrderRouter.serve_pay. destruct link as [e|]; simpl.
  { by left. }
  destruct Hpay as [Hsame|(o & Ho & Hnew)].
  - left. destruct (StatusCode _ =? StatusOK)%Z; simpl; exact Hsame.
  - right. exists p, o.
    destruct (StatusCode _ =? StatusOK)%Z; simpl; repeat split; done.
Qed.

Lemma settle_marks_only_after_commit_witness :
  snd (settle Examples.env_down Examples.env_down (Some (ErrNet "timeout"))
         Examples.pay_4 empty_table SystemExamples.order_4) = SystemExamples.order_4 ∨
  ∃ p o,
    rows (snd (fst (settle Examples.env_down Examples.env_down (Some (ErrNet "timeout"))
                      Examples.pay_4 empty_table SystemExamples.order_4))) !! ID p
      = Some p ∧
    Status p = "success" ∧
    rows SystemExamples.order_4 !! OrderID p = Some o ∧
    snd (settle Examples.env_down Examples.env_down (Some (ErrNet "timeout"))
           Examples.pay_4 empty_table SystemExamples.order_4) =
      Table (<[OrderID p := OrderService.with_Paid true o]> (rows SystemExamples.order_4))
            (next_id SystemExamples.order_4).
Proof.
  exact (settle_marks_only_after_commit Examples.env_down Examples.env_down
           (Some (ErrNet "timeout")) Examples.pay_4 empty_table SystemExamples.order_4
           ltac:(apply (bool_decide_unpack _); vm_compute; reflexivity)).
Defined.

(** X14. No deduplication of payments: the same POST /payments, with no
    id in its body, sent twice in a settlement that works, is answered
    201 both times; the payments table holds two payments with
    consecutive ids for the one order, and the second callback leaves the
    orders table as the first one left it. *)
Theorem retry_duplicates_payment (penv oenv : Env) (body : option json)
    (pdb : DB) (odb : OrderService.DB) (p0 : Payment) (o : OrderService.Order) :
  BindJSON body zero = (p0, None) →
  create_fault penv = None →
  ID p0 = 0%N →
  Getenv penv "ORDER_SERVICE" ≠ "" →
  NewRequest penv (pay_request (Getenv penv "ORDER_SERVICE") (OrderID p0)) = None →
  table_wf odb → rows odb !! OrderID p0 = Some o →
  first_fault oenv = None → save_fault oenv = None →
  ∃ p1 p2 pdb1 pdb2 odb1,
    settle penv oenv None body pdb odb =
      (Replied StatusCreated (H_record p1), pdb1, odb1) ∧
    settle penv oenv None body pdb1 odb1 =
      (Replied StatusCreated (H_record p2), pdb2, odb1) ∧
    ID p1 = next_id pdb ∧ ID p2 = N.succ (next_id pdb) ∧
    OrderID p1 = OrderID p0 ∧ OrderID p2 = OrderID p0 ∧
    rows pdb2 !! ID p1 = Some p1 ∧ rows pdb2 !! ID p2 = Some p2.
Proof.
  intros Hbind Hcf Hz Henv Hnew Hwf Hrow Hff Hsf.
  destruct (settle_ok penv oenv body pdb odb p0 o) as (p1 & pdb1 & Hc1 & Hrun1);
    try done; [by left|].
  set (odb1 := Table (<[OrderID p0 := OrderService.with_Paid true o]> (rows odb))
                     (next_id odb)) in *.
  assert (Hwf1 : table_wf odb1).
  { pose proof (OrderFacts.payOrder_wf oenv (OrderID p0) odb Hwf) as H1.
    by rewrite (payOrder_hit oenv _ odb o) in H1. }
  assert (Hrow1 : rows odb1 !! OrderID p0 = Some (OrderService.with_Paid true o))
    by apply lookup_insert_eq.
  destruct (settle_ok penv oenv body pdb1 odb1 p0 (OrderService.with_Paid true o))
    as (p2 & pdb2 & Hc2 & Hrun2); try done; [by left|].
  assert (Hodb : Table (<[OrderID p0 := OrderService.with_Paid true
                                          (OrderService.with_Paid true o)]> (rows odb1))
                       (next_id odb1) = odb1).
  { unfold odb1. simpl. by rewrite insert_insert_eq. }
  rewrite Hodb in Hrun2.
  revert Hc1 Hc2. unfold Create. simpl. rewrite Hz. simpl.
  intros [= <- <-] [= <- <-]. simpl in *.
  eexists _, _, _, _, odb1. split; [exact Hrun1|]. split; [exact Hrun2|]. simpl.
  repeat split.
  - rewrite lookup_insert_ne by lia. apply lookup_insert_eq.
  - apply lookup_insert_eq.
Qed.

Lemma retry_duplicates_payment_witness :
  ∃ p1 p2 pdb1 pdb2 odb1,
    settle Examples.env_down Examples.env_down None Examples.pay_4
      empty_table SystemExamples.order_4 =
      (Replied StatusCreated (H_record p1), pdb1, odb1) ∧
    settle Examples.env_down Examples.env_down None Examples.pay_4 pdb1 odb1 =
      (Replied StatusCreated (H_record p2), pdb2, odb1) ∧
    ID p1 = 1%N ∧ ID p2 = 2%N.
Proof.
  destruct (retry_duplicates_payment Examples.env_down Examples.env_down
              Examples.pay_4 empty_table SystemExamples.order_4
              {| ID := 0; OrderID := 4; Amount := 100; Status := "pending" |}
              {| OrderService.ID := 4; OrderService.Item := "t-shirt";
                 OrderService.Amount := 100; OrderService.Paid := false |}
              eq_refl eq_refl eq_refl ltac:(discriminate) eq_refl
              ltac:(apply (bool_decide_unpack _); vm_compute; reflexivity)
              eq_refl eq_refl eq_refl)
    as (p1 & p2 & pdb1 & pdb2 & odb1 & H1 & H2 & Hi1 & Hi2 & _).
  exists p1, p2, pdb1, pdb2, odb1.
  repeat split; [exact H1|exact H2|exact Hi1|exact Hi2].
Defined.

(** X15. GET /orders/:id/payment never panics when its requests reach
    the payment service of this repository: whatever the configuration,
    the payments table and the payment store's faults, the handler ends in
    a reply.  (The payment service writes a string status in every 200
    body, and every other answer is not a 200.) *)
Theorem proxy_never_panics (env penv : Env) (db : DB) (orderID : N) :
  Do env = serve_read penv db →
  OrderService.getPayment env orderID ≠ Panicked.
Proof.
  intros Hdo. unfold OrderService.getPayment.
  destruct (String.eqb _ _); [done|].
  destruct (NewRequest _ _); [done|].
  rewrite Hdo. unfold serve_read, getPayment, First.
  cbn [Path Method String.eqb Ascii.eqb Bool.eqb].
  destruct (first_fault penv); [done|].
  destruct (rows db !! orderID) as [p|]; [|done].
  cbn [fst wire StatusCode Body negb Z.eqb StatusOK Pos.eqb].
  destruct (decode_map (to_json p) ∅) as [m [e|]] eqn:Hd; [done|].
  assert (m !! "status" = Some (JString (Status p))) as Hst.
  { revert Hd. unfold decode_map, to_json.
    intros [= <- _]. simpl. apply lookup_insert_eq. }
  unfold OrderService.status_string. by rewrite Hst.
Qed.

Lemma proxy_never_panics_witness :
  OrderService.getPayment (SystemExamples.env_proxy_faulty Examples.payment_1_for_7) 1
  ≠ Panicked.
Proof.
  exact (proxy_never_panics (SystemExamples.env_proxy_faulty Examples.payment_1_for_7)
           _ Examples.payment_1_for_7 1 eq_refl).
Defined.

End SystemFacts.

(** ** Numbers in the proxied body *)

Module ProxyDecodeFacts.
Import OrderService.

(** GET /orders/:id/payment, answered with 200 and an object in which some
    number, at any depth, does not fit a float64: the decoder reports it
    and the handler replies 500, before it looks at the status member. *)
Lemma getPayment_number_out_of_range (env : Env) (orderID : N) (resp : Response)
    (members : list (string * json)) :
  let req := {| Method := "GET"; Base := Getenv env "PAYMENT_SERVICE_URL";
                Path := PaymentsId orderID; ReqBody := None |} in
  Getenv env "PAYMENT_SERVICE_URL" ≠ "" →
  NewRequest env req = None →
  Do env req = inr resp →
  StatusCode resp = StatusOK →
  Body resp = Some (JObject members) →
  forallb (fun kv => fits_float64 (snd kv)) members = false →
  getPayment env orderID =
    Replied StatusInternalServerError (H_error (ErrUnmarshalType "float64")).
Proof.
  intros req Henv Hnew Hdo Hcode Hbody Hfit.
  unfold getPayment. apply String.eqb_neq in Henv. rewrite Henv.
  fold req. rewrite Hnew, Hdo, Hcode, Hbody. unfold decode_map. by rewrite Hfit.
Qed.

(** { "status": 5, "amount": 1e999 } and
    { "status": "success", "amount": 1e999 }, each with status 200, are
    both answered with 500. *)
Lemma getPayment_number_out_of_range_examples :
  getPayment
    (Examples.env_answer
       {| StatusCode := StatusOK;
          Body := Some (JObject [("status", JInt false 5);
                                 ("amount", JFloat "1e999")]) |}) 1
    = Replied StatusInternalServerError (H_error (ErrUnmarshalType "float64")) ∧
  getPayment
    (Examples.env_answer
       {| StatusCode := StatusOK;
          Body := Some (JObject [("status", JString "success");
                                 ("amount", JFloat "1e999")]) |}) 1
    = Replied StatusInternalServerError (H_error (ErrUnmarshalType "float64")).
Proof. split; vm_compute; reflexivity. Qed.

End ProxyDecodeFacts.
